(** * Medifast: session and screen router (src/src/App.tsx) and the
      backend proxy (src/unnamed/part_000)

    The router is the body of the [App] component: seven [useState]
    cells, two [useEffect] reactions to the identity session, and a set
    of [useCallback] handlers that the rendered child receives as props.
    Every handler is embedded as a function on the record of the seven
    cells; the names are those of the source. *)

From Stdlib Require Import String List Bool Arith Lia.
Import ListNotations.
Local Open Scope string_scope.

Set Implicit Arguments.

(** ** Screens *)

(** [type Screen], App.tsx line 34: a union of twenty string literals. *)
Inductive Screen : Set :=
  | homepage | login | signup | register | welcome | home
  | doctors | medicine | lab | ambulance | mental | yoga | nutrition
  | notifications | profile | appointments | wellness | chat
  | ai_symptom_checker | subscription.

(** The literal each constructor stands for. *)
Definition screen_literal (s : Screen) : string :=
  match s with
  | homepage => "homepage" | login => "login" | signup => "signup"
  | register => "register" | welcome => "welcome" | home => "home"
  | doctors => "doctors" | medicine => "medicine" | lab => "lab"
  | ambulance => "ambulance" | mental => "mental" | yoga => "yoga"
  | nutrition => "nutrition" | notifications => "notifications"
  | profile => "profile" | appointments => "appointments"
  | wellness => "wellness" | chat => "chat"
  | ai_symptom_checker => "ai-symptom-checker"
  | subscription => "subscription"
  end.

Definition all_screens : list Screen :=
  [homepage; login; signup; register; welcome; home; doctors; medicine; lab;
   ambulance; mental; yoga; nutrition; notifications; profile; appointments;
   wellness; chat; ai_symptom_checker; subscription].

(** [===] on two screens: comparison of the literals. *)
Definition screen_eqb (a b : Screen) : bool :=
  String.eqb (screen_literal a) (screen_literal b).

(** [Array.prototype.includes] on an array of screen literals. *)
Definition includes (xs : list Screen) (x : Screen) : bool :=
  existsb (screen_eqb x) xs.

(** [type ProfessionalScreen], line 35.  [handleProfessionalPortalSelection]
    stores its [string] argument through a cast, so the cell holds an
    arbitrary string at run time; the five literals are named here. *)
Definition professional_portal : string := "professional-portal".
Definition doctor_dashboard : string := "doctor-dashboard".
Definition pharmacist_dashboard : string := "pharmacist-dashboard".
Definition lab_dashboard : string := "lab-dashboard".
Definition ambulance_dashboard : string := "ambulance-dashboard".

(** ** Router state: the seven [useState] cells, lines 55-61 *)

Record RouterState : Set := mkRouterState {
  currentScreen : Screen;
  professionalScreen : option string;
  isProfessionalMode : bool;
  pendingNavigation : option Screen;
  isTempAccount : bool;
  showRegisterModal : bool;
  userDataComplete : bool
}.

(** The initial values given to [useState]. *)
Definition initialState : RouterState :=
  {| currentScreen := homepage;
     professionalScreen := None;
     isProfessionalMode := false;
     pendingNavigation := None;
     isTempAccount := false;
     showRegisterModal := false;
     userDataComplete := false |}.

(** The state setters.  A setter called with a plain value replaces that
    cell and no other. *)
Definition setCurrentScreen (v : Screen) (st : RouterState) : RouterState :=
  {| currentScreen := v;
     professionalScreen := professionalScreen st;
     isProfessionalMode := isProfessionalMode st;
     pendingNavigation := pendingNavigation st;
     isTempAccount := isTempAccount st;
     showRegisterModal := showRegisterModal st;
     userDataComplete := userDataComplete st |}.

Definition setProfessionalScreen (v : option string) (st : RouterState)
  : RouterState :=
  {| currentScreen := currentScreen st;
     professionalScreen := v;
     isProfessionalMode := isProfessionalMode st;
     pendingNavigation := pendingNavigation st;
     isTempAccount := isTempAccount st;
     showRegisterModal := showRegisterModal st;
     userDataComplete := userDataComplete st |}.

Definition setIsProfessionalMode (v : bool) (st : RouterState) : RouterState :=
  {| currentScreen := currentScreen st;
     professionalScreen := professionalScreen st;
     isProfessionalMode := v;
     pendingNavigation := pendingNavigation st;
     isTempAccount := isTempAccount st;
     showRegisterModal := showRegisterModal st;
     userDataComplete := userDataComplete st |}.

Definition setPendingNavigation (v : option Screen) (st : RouterState)
  : RouterState :=
  {| currentScreen := currentScreen st;
     professionalScreen := professionalScreen st;
     isProfessionalMode := isProfessionalMode st;
     pendingNavigation := v;
     isTempAccount := isTempAccount st;
     showRegisterModal := showRegisterModal st;
     userDataComplete := userDataComplete st |}.

Definition setIsTempAccount (v : bool) (st : RouterState) : RouterState :=
  {| currentScreen := currentScreen st;
     professionalScreen := professionalScreen st;
     isProfessionalMode := isProfessionalMode st;
     pendingNavigation := pendingNavigation st;
     isTempAccount := v;
     showRegisterModal := showRegisterModal st;
     userDataComplete := userDataComplete st |}.

Definition setShowRegisterModal (v : bool) (st : RouterState) : RouterState :=
  {| currentScreen := currentScreen st;
     professionalScreen := professionalScreen st;
     isProfessionalMode := isProfessionalMode st;
     pendingNavigation := pendingNavigation st;
     isTempAccount := isTempAccount st;
     showRegisterModal := v;
     userDataComplete := userDataComplete st |}.

Definition setUserDataComplete (v : bool) (st : RouterState) : RouterState :=
  {| currentScreen := currentScreen st;
     professionalScreen := professionalScreen st;
     isProfessionalMode := isProfessionalMode st;
     pendingNavigation := pendingNavigation st;
     isTempAccount := isTempAccount st;
     showRegisterModal := showRegisterModal st;
     userDataComplete := v |}.

(** ** The identity session, as [useUser()] hands it to the component *)

(** The parts of the identity provider's user object that the router
    reads.  [profileComplete] is read only for its truthiness. *)
Record PublicMetadata : Set := {
  profileComplete : bool;
  accountType : option string
}.

Record User : Set := {
  firstName : option string;
  lastName : option string;
  primaryPhoneNumber : option string;
  publicMetadata : option PublicMetadata
}.

Record Session : Set := {
  isSignedIn : bool;
  user : option User;
  isLoaded : bool
}.

(** Truthiness of a nullable string: neither null nor empty. *)
Definition truthy_string (o : option string) : bool :=
  match o with
  | Some s => negb (String.eqb s "")
  | None => false
  end.

Definition is_some {A : Type} (o : option A) : bool :=
  match o with Some _ => true | None => false end.

(** Line 68, as a truth value. *)
Definition hasBasicInfo (u : User) : bool :=
  truthy_string (firstName u) && truthy_string (lastName u)
  && is_some (primaryPhoneNumber u).

(** Line 69: [user.publicMetadata?.profileComplete], as a truth value. *)
Definition hasMetadata (u : User) : bool :=
  match publicMetadata u with
  | Some m => profileComplete m
  | None => false
  end.

(** Line 74. *)
Definition isTemp (u : User) : bool :=
  match publicMetadata u with
  | Some m =>
      match accountType m with
      | Some t => String.eqb t "temporary"
      | None => false
      end
  | None => false
  end
  || negb (hasBasicInfo u).

(** ** The two session reactions ([useEffect], lines 64-99)

    An effect runs after a render and reads the cells through the closure
    of that render; its setter calls are queued and applied afterwards.
    So an effect is embedded as a function of the session and of the
    rendered snapshot that yields the update to apply.  Both effects of
    one render read the same snapshot: the second does not see what the
    first has just set. *)

Definition Update : Set := RouterState -> RouterState.

Definition no_update : Update := fun st => st.

(** Lines 64-76: profile completeness.  The value stored in
    [userDataComplete] is only ever tested, so its truth value is kept. *)
Definition profileEffect (sess : Session) : Update :=
  match isSignedIn sess, user sess with
  | true, Some u =>
      fun st =>
        setIsTempAccount (isTemp u)
          (setUserDataComplete (hasBasicInfo u || hasMetadata u) st)
  | _, _ => no_update
  end.

(** The test of line 91. *)
Definition on_auth_screen (s : Screen) : bool :=
  screen_eqb s homepage || screen_eqb s login || screen_eqb s signup.

(** Lines 79-99: authentication flow and redirects. *)
Definition authEffect (sess : Session) (snapshot : RouterState) : Update :=
  if negb (isLoaded sess) then no_update
  else if isSignedIn sess && is_some (user sess) then
    match pendingNavigation snapshot with
    | Some target =>
        fun st => setPendingNavigation None (setCurrentScreen target st)
    | None =>
        if negb (userDataComplete snapshot)
           && negb (screen_eqb (currentScreen snapshot) register)
        then setCurrentScreen register
        else if on_auth_screen (currentScreen snapshot)
        then setCurrentScreen welcome
        else no_update
    end
  else if negb (isSignedIn sess)
          && (screen_eqb (currentScreen snapshot) home
              || screen_eqb (currentScreen snapshot) welcome)
  then setCurrentScreen homepage
  else no_update.

(** The reaction to a session: the render that sees [sess] runs both
    effects on the state [st] it rendered. *)
Definition onSessionChange (sess : Session) (st : RouterState) : RouterState :=
  authEffect sess st (profileEffect sess st).

(** ** Handlers that store plain, well-typed values *)

(** Lines 182-192. *)
Definition handleGoToLogin : Update := setCurrentScreen login.
Definition handleGoToSignup : Update := setCurrentScreen signup.
Definition handleGoToRegister : Update := setCurrentScreen register.

(** Lines 194-198. *)
Definition handleBackToHomepage : Update :=
  fun st =>
    setProfessionalScreen None
      (setIsProfessionalMode false (setCurrentScreen homepage st)).

(** Lines 233-235. *)
Definition handleNavigation (screen : Screen) : Update :=
  setCurrentScreen screen.

(** Lines 237-240. *)
Definition handleProfessionalPortalAccess : Update :=
  fun st =>
    setProfessionalScreen (Some professional_portal)
      (setIsProfessionalMode true st).

(** Lines 242-256. *)
Definition handleSimpleSignupComplete : Update := setIsTempAccount true.
Definition handleWelcomeComplete : Update := setCurrentScreen home.
Definition handleOpenRegisterModal : Update := setShowRegisterModal true.
Definition handleCloseRegisterModal : Update := setShowRegisterModal false.

(** Lines 285-291. *)
Definition handleProfessionalPortalSelection (portal : string) : Update :=
  setProfessionalScreen (Some portal).

Definition handleBackToProfessionalPortal : Update :=
  setProfessionalScreen (Some professional_portal).

(** [backToHome], line 336. *)
Definition backToHome : Update := setCurrentScreen home.

(** ** Index expressions on an object literal

    [handleNavigateToFeature] and [handleTabChange] look a caller-supplied
    string up in an object literal ([screenMap[featureType]]).  Such a
    lookup finds the literal's own properties first and then the
    properties every object literal inherits from [Object.prototype];
    only a key found in neither place gives [undefined]. *)

Inductive ObjectPrototypeMember : Set :=
  | P_constructor | P_hasOwnProperty | P_isPrototypeOf
  | P_propertyIsEnumerable | P_toLocaleString | P_toString | P_valueOf
  | P_proto | P_defineGetter | P_defineSetter | P_lookupGetter
  | P_lookupSetter.

Definition member_name (m : ObjectPrototypeMember) : string :=
  match m with
  | P_constructor => "constructor"
  | P_hasOwnProperty => "hasOwnProperty"
  | P_isPrototypeOf => "isPrototypeOf"
  | P_propertyIsEnumerable => "propertyIsEnumerable"
  | P_toLocaleString => "toLocaleString"
  | P_toString => "toString"
  | P_valueOf => "valueOf"
  | P_proto => "__proto__"
  | P_defineGetter => "__defineGetter__"
  | P_defineSetter => "__defineSetter__"
  | P_lookupGetter => "__lookupGetter__"
  | P_lookupSetter => "__lookupSetter__"
  end.

Definition object_prototype_members : list ObjectPrototypeMember :=
  [P_constructor; P_hasOwnProperty; P_isPrototypeOf; P_propertyIsEnumerable;
   P_toLocaleString; P_toString; P_valueOf; P_proto; P_defineGetter;
   P_defineSetter; P_lookupGetter; P_lookupSetter].

Definition inherited_property (key : string) : option ObjectPrototypeMember :=
  find (fun m => String.eqb (member_name m) key) object_prototype_members.

(** What an index expression on a [Record<string, Screen>] literal
    evaluates to. *)
Inductive Value : Set :=
  | VUndefined
  | VScreen (s : Screen)
  | VInherited (m : ObjectPrototypeMember).

(** Screen literals are non-empty strings, the inherited members are
    functions or objects: all of them truthy. *)
Definition truthy (v : Value) : bool :=
  match v with
  | VUndefined => false
  | VScreen _ | VInherited _ => true
  end.

Definition ObjectLiteral : Set := list (string * Screen).

Fixpoint own_property (obj : ObjectLiteral) (key : string) : option Screen :=
  match obj with
  | [] => None
  | (k, v) :: rest => if String.eqb k key then Some v else own_property rest key
  end.

(** [obj[key]]. *)
Definition get (obj : ObjectLiteral) (key : string) : Value :=
  match own_property obj key with
  | Some s => VScreen s
  | None =>
      match inherited_property key with
      | Some m => VInherited m
      | None => VUndefined
      end
  end.

(** [a || b]. *)
Definition or_else (a b : Value) : Value := if truthy a then a else b.

(** [xs.includes(v)] for an array of screen literals and any value. *)
Definition includes_value (xs : list Screen) (v : Value) : bool :=
  match v with
  | VScreen s => includes xs s
  | _ => false
  end.

(** ** Handlers that store the result of a lookup

    The cells [currentScreen] and [pendingNavigation] are declared to hold
    screens.  A handler that passes a looked-up value to their setters
    stores it when it is a screen; when it is not, the call is recorded
    with the value it was given and the record of cells is left as it
    was for that call: what the cell then holds lies outside the declared
    type [Screen] and outside this model. *)

Inductive Cell : Set := CurrentScreenCell | PendingNavigationCell.

Record Stray : Set := { stray_cell : Cell; stray_value : Value }.

Definition Handler : Set := RouterState -> RouterState * list Stray.

Definition done : Handler := fun st => (st, []).

Definition plain (u : Update) : Handler := fun st => (u st, []).

Definition and_then (h1 h2 : Handler) : Handler :=
  fun st =>
    let (st1, l1) := h1 st in
    let (st2, l2) := h2 st1 in
    (st2, (l1 ++ l2)%list).

Notation "h1 ;; h2" := (and_then h1 h2) (at level 61, right associativity).

Definition storeCurrentScreen (v : Value) : Handler :=
  match v with
  | VScreen s => plain (setCurrentScreen s)
  | _ => fun st => (st, [{| stray_cell := CurrentScreenCell; stray_value := v |}])
  end.

Definition storePendingNavigation (v : Value) : Handler :=
  match v with
  | VScreen s => plain (setPendingNavigation (Some s))
  | _ =>
      fun st => (st, [{| stray_cell := PendingNavigationCell; stray_value := v |}])
  end.

(** The array of line 260. *)
Definition restricted_screens : list Screen :=
  [appointments; ai_symptom_checker; wellness].

(** Lines 258-265.  Its only caller is [handleTabChange], which hands it
    the result of a lookup. *)
Definition handleTrialFeatureAccess (featureScreen : Value) : Handler :=
  fun st =>
    if isTempAccount st && includes_value restricted_screens featureScreen
    then plain (setShowRegisterModal true) st
    else storeCurrentScreen featureScreen st.

(** The object literal of lines 268-273. *)
Definition featureScreenMap : ObjectLiteral :=
  [("doctors", doctors); ("medicine", medicine); ("lab", lab);
   ("ambulance", ambulance)].

(** Lines 267-283; [isSignedIn] is read from the session of the render. *)
Definition handleNavigateToFeature (sess : Session) (featureType : string)
  : Handler :=
  let targetScreen := get featureScreenMap featureType in
  if truthy targetScreen then
    if isSignedIn sess then storeCurrentScreen targetScreen
    else storePendingNavigation targetScreen ;;
         storeCurrentScreen (VScreen signup)
  else done.

(** The object literal of lines 294-300. *)
Definition tabScreenMap : ObjectLiteral :=
  [("home", home); ("appointments", appointments); ("wellness", wellness);
   ("chat", chat); ("profile", profile)].

(** Lines 293-305. *)
Definition handleTabChange (tab : string) : Handler :=
  let targetScreen := or_else (get tabScreenMap tab) (VScreen home) in
  handleTrialFeatureAccess targetScreen.

(** ** Calls to the identity provider

    The provider is external.  An awaited call either resolves with a
    value or rejects with a thrown error; a handler is embedded as a
    function of what its awaited calls do, and returns, next to its
    result, the invocations it made, in order, each with the error it
    rejected with, if any. *)

(** One entry of the [errors] array carried by the provider's errors. *)
Record APIError : Set := {
  code : string;
  message : string;
  longMessage : option string
}.

(** What a rejected call throws.  [catch (error: any)] receives any value:
    null or undefined, or a value with properties, whose [errors] is
    absent when it does not come from the provider's API (a failed
    network request, a thrown string). *)
Inductive Thrown : Set :=
  | Nullish
  | ErrorValue (thrown_message : string) (errors : option (list APIError)).

Inductive Awaited (A : Type) : Type :=
  | Resolved (a : A)
  | Rejected (e : Thrown).

Arguments Resolved {A} a.
Arguments Rejected {A} e.

(** [error.errors?.[0]?.longMessage], for a value that is not nullish. *)
Definition first_long_message (e : Thrown) : option string :=
  match e with
  | ErrorValue _ (Some (first :: _)) => longMessage first
  | _ => None
  end.

(** [error.errors?.[0]?.longMessage || fallback], for a value that is not
    nullish. *)
Definition message_or (e : Thrown) (fallback : string) : string :=
  match first_long_message e with
  | Some m => if String.eqb m "" then fallback else m
  | None => fallback
  end.

(** The argument of [user.update]: lines 144-149 and lines 204-215. *)
Inductive UpdateRequest : Set :=
  | MarkTemporary
  | CompleteProfile (first last : string) (previous : option PublicMetadata)
      (dateOfBirth phone address : string).

Inductive Operation : Set :=
  | SignInCreate (identifier password : string)
  | SignUpCreate (emailAddress password : string)
  | PrepareEmailAddressVerification (strategy : string)
  | AttemptEmailAddressVerification (verificationCode : string)
  | UserUpdate (request : UpdateRequest).

Record Invocation : Set := {
  operation : Operation;
  rejection : option Thrown
}.

Definition invoked {A : Type} (op : Operation) (outcome : Awaited A)
  : Invocation :=
  {| operation := op;
     rejection := match outcome with
                  | Resolved _ => None
                  | Rejected e => Some e
                  end |}.

(** The method of the provider an invocation went to, without its
    arguments. *)
Inductive Method : Set :=
  | M_signIn_create | M_signUp_create | M_prepareEmailAddressVerification
  | M_attemptEmailAddressVerification | M_user_update.

Definition method_of (op : Operation) : Method :=
  match op with
  | SignInCreate _ _ => M_signIn_create
  | SignUpCreate _ _ => M_signUp_create
  | PrepareEmailAddressVerification _ => M_prepareEmailAddressVerification
  | AttemptEmailAddressVerification _ => M_attemptEmailAddressVerification
  | UserUpdate _ => M_user_update
  end.

(** The resources of [useSignIn()] and [useSignUp()], and the [update]
    method of the user object. *)
Record SignInResource : Type := {
  signIn_create : string -> string -> Awaited string
}.

Record SignUpResource : Type := {
  signUp_create : string -> string -> Awaited string;
  prepareEmailAddressVerification : string -> Awaited unit;
  attemptEmailAddressVerification : string -> Awaited string
}.

Definition UserUpdater : Type := User -> UpdateRequest -> Awaited unit.

(** The objects the three handlers return. *)
Record AuthResult : Set := {
  success : bool;
  error : option string;
  needsVerification : option bool
}.

Definition succeeded : AuthResult :=
  {| success := true; error := None; needsVerification := None |}.

Definition failed (msg : string) : AuthResult :=
  {| success := false; error := Some msg; needsVerification := None |}.

(** The TypeError of reading a property of null or undefined. *)
Definition property_of_nullish : Thrown :=
  ErrorValue "TypeError: cannot read properties of null or undefined" None.

(** The [catch] block of the three handlers.  It reads [error.errors]
    before any optional chaining, so on null or undefined it throws in
    its turn and the handler returns no object: its promise rejects. *)
Definition caught (e : Thrown) (fallback : string) : Awaited AuthResult :=
  match e with
  | Nullish => Rejected property_of_nullish
  | ErrorValue _ _ => Resolved (failed (message_or e fallback))
  end.

(** Lines 102-124.  An awaited [create] resolves with [result.status];
    the handler is asynchronous, so what it gives back is awaited too. *)
Definition handleLogin (signIn : option SignInResource)
    (email password : string) : Awaited AuthResult * list Invocation :=
  match signIn with
  | None => (Resolved (failed "Login not available"), [])
  | Some si =>
      let outcome := signIn_create si email password in
      let calls := [invoked (SignInCreate email password) outcome] in
      match outcome with
      | Resolved status =>
          if String.eqb status "complete" then (Resolved succeeded, calls)
          else (Resolved (failed "Additional verification required"), calls)
      | Rejected e => (caught e "Login failed", calls)
      end
  end.

(** Lines 126-161. *)
Definition handleSignup (signUp : option SignUpResource)
    (user : option User) (update : UserUpdater)
    (email password : string) (isSimple : bool)
  : Awaited AuthResult * list Invocation :=
  match signUp with
  | None => (Resolved (failed "Signup not available"), [])
  | Some su =>
      let created := signUp_create su email password in
      let c1 := invoked (SignUpCreate email password) created in
      match created with
      | Rejected e => (caught e "Signup failed", [c1])
      | Resolved status =>
          if String.eqb status "missing_requirements" then
            let prepared := prepareEmailAddressVerification su "email_code" in
            let c2 :=
              invoked (PrepareEmailAddressVerification "email_code") prepared in
            match prepared with
            | Rejected e => (caught e "Signup failed", [c1; c2])
            | Resolved _ =>
                (Resolved {| success := true; error := None;
                             needsVerification := Some true |}, [c1; c2])
            end
          else if String.eqb status "complete" then
            match isSimple, user with
            | true, Some u =>
                let updated := update u MarkTemporary in
                let c2 := invoked (UserUpdate MarkTemporary) updated in
                match updated with
                | Rejected e => (caught e "Signup failed", [c1; c2])
                | Resolved _ => (Resolved succeeded, [c1; c2])
                end
            | _, _ => (Resolved succeeded, [c1])
            end
          else (Resolved (failed "Signup incomplete"), [c1])
      end
  end.

(** Lines 163-180. *)
Definition handleVerifyEmail (signUp : option SignUpResource)
    (verificationCode : string) : Awaited AuthResult * list Invocation :=
  match signUp with
  | None => (Resolved (failed "Verification not available"), [])
  | Some su =>
      let outcome := attemptEmailAddressVerification su verificationCode in
      let calls :=
        [invoked (AttemptEmailAddressVerification verificationCode) outcome] in
      match outcome with
      | Resolved status =>
          if String.eqb status "complete" then (Resolved succeeded, calls)
          else (Resolved (failed "Verification failed"), calls)
      | Rejected e => (caught e "Verification failed", calls)
      end
  end.

(** ** Registration (lines 200-231) *)

(** The fields of [userData] the handler reads. *)
Record UserData : Set := {
  data_firstName : string;
  data_lastName : string;
  data_dateOfBirth : string;
  data_phone : string;
  data_address : string
}.

Definition registration_request (u : User) (userData : UserData)
  : UpdateRequest :=
  CompleteProfile (data_firstName userData) (data_lastName userData)
    (publicMetadata u) (data_dateOfBirth userData) (data_phone userData)
    (data_address userData).

(** What [console.error] was called with. *)
Record ConsoleError : Set := { console_label : string; console_error : Thrown }.

(** The setter calls of lines 217-226, after the awaited update; the
    pending target is the one of the render that created the callback. *)
Definition registration_updates (snapshot : RouterState) : Update :=
  fun st =>
    let st := setShowRegisterModal false
                (setIsTempAccount false (setUserDataComplete true st)) in
    match pendingNavigation snapshot with
    | Some target => setPendingNavigation None (setCurrentScreen target st)
    | None => setCurrentScreen welcome st
    end.

(** The result carries the invocations made and what was logged. *)
Definition handleRegistrationComplete (sess : Session) (update : UserUpdater)
    (userData : UserData) (st : RouterState)
  : RouterState * list Invocation * list ConsoleError :=
  match user sess with
  | Some u =>
      let request := registration_request u userData in
      let outcome := update u request in
      let calls := [invoked (UserUpdate request) outcome] in
      match outcome with
      | Resolved _ => (registration_updates st st, calls, [])
      | Rejected e =>
          (st, calls,
           [{| console_label := "Failed to update user profile:";
               console_error := e |}])
      end
  | None => (st, [], [])
  end.

(** ** What a render offers (lines 308-388 and 405-522)

    The component passes its handlers to the child it mounts; a child can
    invoke only what it was given.  [render] lists, for a session and a
    state, the callbacks bound into the mounted tree. *)

Inductive Callback : Set :=
  | CB_handleLogin | CB_handleSignup | CB_handleVerifyEmail
  | CB_handleGoToLogin | CB_handleGoToSignup | CB_handleBackToHomepage
  | CB_handleRegistrationComplete | CB_handleNavigation
  | CB_handleProfessionalPortalAccess | CB_handleSimpleSignupComplete
  | CB_handleWelcomeComplete | CB_handleOpenRegisterModal
  | CB_handleCloseRegisterModal | CB_handleNavigateToFeature
  | CB_handleProfessionalPortalSelection | CB_handleBackToProfessionalPortal
  | CB_handleTabChange | CB_backToHome.

(** Lines 308-333. *)
Definition renderProfessionalScreen (st : RouterState) : list Callback :=
  let portal := [CB_handleProfessionalPortalSelection; CB_handleBackToHomepage] in
  match professionalScreen st with
  | Some p =>
      if String.eqb p professional_portal then portal
      else if String.eqb p doctor_dashboard
              || String.eqb p pharmacist_dashboard
              || String.eqb p lab_dashboard
              || String.eqb p ambulance_dashboard
      then [CB_handleBackToProfessionalPortal]
      else portal
  | None => portal
  end.

(** Lines 335-388. *)
Definition renderScreen (st : RouterState) : list Callback :=
  match currentScreen st with
  | home => [CB_handleNavigation; CB_handleOpenRegisterModal]
  | doctors | medicine | lab | ambulance | mental | ai_symptom_checker
  | yoga | nutrition | subscription | chat | profile => [CB_backToHome]
  | appointments => [CB_backToHome; CB_handleNavigation]
  | notifications | wellness => []
  | _ => [CB_handleNavigation]
  end.

(** Lines 405-522, in the order of the source. *)
Definition render (sess : Session) (st : RouterState) : list Callback :=
  if negb (isLoaded sess) then []
  else if isProfessionalMode st then renderProfessionalScreen st
  else if negb (isSignedIn sess) then
    match currentScreen st with
    | login =>
        [CB_handleLogin; CB_handleGoToSignup; CB_handleBackToHomepage;
         CB_handleVerifyEmail]
    | signup =>
        [CB_handleLogin; CB_handleSignup; CB_handleSimpleSignupComplete;
         CB_handleBackToHomepage; CB_handleVerifyEmail]
    | _ =>
        [CB_handleGoToLogin; CB_handleGoToSignup;
         CB_handleProfessionalPortalAccess; CB_handleNavigateToFeature]
    end
  else if screen_eqb (currentScreen st) register then
    [CB_handleRegistrationComplete; CB_handleGoToLogin]
  else if screen_eqb (currentScreen st) welcome then
    [CB_handleWelcomeComplete]
  else
    ((if isTempAccount st then [CB_handleOpenRegisterModal] else [])
     ++ renderScreen st
     ++ [CB_handleTabChange]
     ++ [CB_handleCloseRegisterModal; CB_handleRegistrationComplete])%list.

(** An invocation of a callback by the mounted child, with its
    arguments.  The three authentication handlers call no setter. *)
Inductive Event : Type :=
  | E_auth (cb : Callback)
  | E_goToLogin | E_goToSignup | E_backToHomepage
  | E_registrationComplete (update : UserUpdater) (userData : UserData)
  | E_navigation (screen : Screen)
  | E_professionalPortalAccess | E_simpleSignupComplete | E_welcomeComplete
  | E_openRegisterModal | E_closeRegisterModal
  | E_navigateToFeature (featureType : string)
  | E_professionalPortalSelection (portal : string)
  | E_backToProfessionalPortal
  | E_tabChange (tab : string)
  | E_backToHome.

Definition callback_of (ev : Event) : Callback :=
  match ev with
  | E_auth cb => cb
  | E_goToLogin => CB_handleGoToLogin
  | E_goToSignup => CB_handleGoToSignup
  | E_backToHomepage => CB_handleBackToHomepage
  | E_registrationComplete _ _ => CB_handleRegistrationComplete
  | E_navigation _ => CB_handleNavigation
  | E_professionalPortalAccess => CB_handleProfessionalPortalAccess
  | E_simpleSignupComplete => CB_handleSimpleSignupComplete
  | E_welcomeComplete => CB_handleWelcomeComplete
  | E_openRegisterModal => CB_handleOpenRegisterModal
  | E_closeRegisterModal => CB_handleCloseRegisterModal
  | E_navigateToFeature _ => CB_handleNavigateToFeature
  | E_professionalPortalSelection _ => CB_handleProfessionalPortalSelection
  | E_backToProfessionalPortal => CB_handleBackToProfessionalPortal
  | E_tabChange _ => CB_handleTabChange
  | E_backToHome => CB_backToHome
  end.

(** The handler an event runs. *)
Definition perform (sess : Session) (ev : Event) : Handler :=
  match ev with
  | E_auth _ => done
  | E_goToLogin => plain handleGoToLogin
  | E_goToSignup => plain handleGoToSignup
  | E_backToHomepage => plain handleBackToHomepage
  | E_registrationComplete update userData =>
      fun st => (fst (fst (handleRegistrationComplete sess update userData st)), [])
  | E_navigation screen => plain (handleNavigation screen)
  | E_professionalPortalAccess => plain handleProfessionalPortalAccess
  | E_simpleSignupComplete => plain handleSimpleSignupComplete
  | E_welcomeComplete => plain handleWelcomeComplete
  | E_openRegisterModal => plain handleOpenRegisterModal
  | E_closeRegisterModal => plain handleCloseRegisterModal
  | E_navigateToFeature featureType => handleNavigateToFeature sess featureType
  | E_professionalPortalSelection portal =>
      plain (handleProfessionalPortalSelection portal)
  | E_backToProfessionalPortal => plain handleBackToProfessionalPortal
  | E_tabChange tab => handleTabChange tab
  | E_backToHome => plain backToHome
  end.

Definition callback_eqb (a b : Callback) : bool :=
  match a, b with
  | CB_handleLogin, CB_handleLogin
  | CB_handleSignup, CB_handleSignup
  | CB_handleVerifyEmail, CB_handleVerifyEmail
  | CB_handleGoToLogin, CB_handleGoToLogin
  | CB_handleGoToSignup, CB_handleGoToSignup
  | CB_handleBackToHomepage, CB_handleBackToHomepage
  | CB_handleRegistrationComplete, CB_handleRegistrationComplete
  | CB_handleNavigation, CB_handleNavigation
  | CB_handleProfessionalPortalAccess, CB_handleProfessionalPortalAccess
  | CB_handleSimpleSignupComplete, CB_handleSimpleSignupComplete
  | CB_handleWelcomeComplete, CB_handleWelcomeComplete
  | CB_handleOpenRegisterModal, CB_handleOpenRegisterModal
  | CB_handleCloseRegisterModal, CB_handleCloseRegisterModal
  | CB_handleNavigateToFeature, CB_handleNavigateToFeature
  | CB_handleProfessionalPortalSelection, CB_handleProfessionalPortalSelection
  | CB_handleBackToProfessionalPortal, CB_handleBackToProfessionalPortal
  | CB_handleTabChange, CB_handleTabChange
  | CB_backToHome, CB_backToHome => true
  | _, _ => false
  end.

(** [offers sess st cb]: the tree rendered for [sess] and [st] holds [cb]. *)
Definition offers (sess : Session) (st : RouterState) (cb : Callback) : bool :=
  existsb (callback_eqb cb) (render sess st).

(** One step of the application: a reaction to the session (both effects
    of a render, or either one alone when only its dependencies changed),
    or a callback of the mounted tree.  The states are those the declared
    types describe, so a step of a lookup handler is one that stored only
    screens. *)
Inductive step : RouterState -> RouterState -> Prop :=
  | step_session (sess : Session) (st : RouterState) :
      step st (onSessionChange sess st)
  | step_profile (sess : Session) (st : RouterState) :
      step st (profileEffect sess st)
  | step_auth (sess : Session) (st : RouterState) :
      step st (authEffect sess st st)
  | step_event (sess : Session) (ev : Event) (st st' : RouterState) :
      offers sess st (callback_of ev) = true ->
      perform sess ev st = (st', []) ->
      step st st'.

Inductive reachable : RouterState -> Prop :=
  | reachable_initial : reachable initialState
  | reachable_step (st st' : RouterState) :
      reachable st -> step st st' -> reachable st'.

(** The two callbacks that store a professional screen and leave
    [isProfessionalMode] alone. *)
Definition sets_portal_only (ev : Event) : bool :=
  match ev with
  | E_professionalPortalSelection _ | E_backToProfessionalPortal => true
  | _ => false
  end.

(** The invariant of section 3 of the specification. *)
Definition professional_invariant (st : RouterState) : Prop :=
  professionalScreen st <> None -> isProfessionalMode st = true.

(** ** The backend proxy (src/unnamed/part_000) *)

Module Proxy.

#[local] Unset Elimination Schemes.

(** A JSON value; a number is kept as its literal. *)
Inductive Json : Set :=
  | JNull
  | JBool (b : bool)
  | JNumber (literal : string)
  | JString (s : string)
  | JArray (items : list Json)
  | JObject (members : list (string * Json)).

#[local] Set Elimination Schemes.

(** The text [JSON.stringify] produces for a value. *)
Inductive Text : Set := JSON_stringify (j : Json).

(** The request: its method, and its parsed body when it has one. *)
Record Request : Set := {
  method : string;
  body : option Json
}.

(** The second argument of [fetch]. *)
Record FetchInit : Set := {
  fetch_method : string;
  fetch_headers : list (string * string);
  fetch_body : option Text
}.

(** A response of the backend: [json()] is awaited in its turn. *)
Record BackendResponse : Set := {
  backend_status : nat;
  json : Awaited Json
}.

(** [fetch], given the URL read from the environment. *)
Definition Fetch : Type := option string -> FetchInit -> Awaited BackendResponse.

(** What the handler answers through [res.status(..).json(..)]. *)
Record Response : Set := {
  status : nat;
  payload : Json
}.

Inductive Effect : Set :=
  | Fetched (url : option string) (init : FetchInit)
  | Logged (err : Thrown).

Definition error_body (msg : string) : Json := JObject [("error", JString msg)].

(** The init object of lines 10-14. *)
Definition forward_init (req : Request) : FetchInit :=
  {| fetch_method := "POST";
     fetch_headers := [("Content-Type", "application/json")];
     fetch_body := option_map JSON_stringify (body req) |}.

(** Lines 1-21.  [BACKEND_URL] is [process.env.BACKEND_URL]. *)
Definition handler (BACKEND_URL : option string) (fetch : Fetch)
    (req : Request) : Response * list Effect :=
  if negb (String.eqb (method req) "POST") then
    ({| status := 405; payload := error_body "Method not allowed" |}, [])
  else
    let backendUrl := BACKEND_URL in
    let init := forward_init req in
    match fetch backendUrl init with
    | Resolved backendResponse =>
        match json backendResponse with
        | Resolved data =>
            ({| status := 200; payload := data |}, [Fetched backendUrl init])
        | Rejected err =>
            ({| status := 500; payload := error_body "Failed to reach backend" |},
             [Fetched backendUrl init; Logged err])
        end
    | Rejected err =>
        ({| status := 500; payload := error_body "Failed to reach backend" |},
         [Fetched backendUrl init; Logged err])
    end.

End Proxy.

(** ** The active tab (lines 391-400) *)

(** The array of line 396. *)
Definition wellness_group : list Screen := [wellness; mental; yoga; nutrition].

Definition activeTab (sess : Session) (st : RouterState) : string :=
  if negb (isSignedIn sess) then "home"
  else if screen_eqb (currentScreen st) home then "home"
  else if screen_eqb (currentScreen st) appointments then "appointments"
  else if includes wellness_group (currentScreen st) then "wellness"
  else if screen_eqb (currentScreen st) chat then "chat"
  else if screen_eqb (currentScreen st) profile then "profile"
  else "home".

(** ** What is mounted (lines 308-388 and 405-522)

    [render] above lists the callbacks of the mounted tree; [view] names
    the component the same conditionals select. *)

Inductive ProfessionalComponent : Set :=
  | ProfessionalPortal | DoctorDashboard | PharmacistDashboard
  | LabDashboard | AmbulanceDashboard.

(** The [switch] of lines 309-332. *)
Definition professionalComponent (st : RouterState) : ProfessionalComponent :=
  match professionalScreen st with
  | Some p =>
      if String.eqb p professional_portal then ProfessionalPortal
      else if String.eqb p doctor_dashboard then DoctorDashboard
      else if String.eqb p pharmacist_dashboard then PharmacistDashboard
      else if String.eqb p lab_dashboard then LabDashboard
      else if String.eqb p ambulance_dashboard then AmbulanceDashboard
      else ProfessionalPortal
  | None => ProfessionalPortal
  end.

Inductive MainComponent : Set :=
  | PostLoginHomepage | DoctorSearch | MedicineOrdering | LabTestBooking
  | EmergencyServices | MentalHealthSupport | AISymptomChecker
  | YogaExerciseTracker | NutritionTracker | PersonalHealthDashboard
  | SubscriptionPage | ChatSupport | ProfileManagement
  | ComingSoon (title : string)
  | PatientDashboard.

(** The [switch] of lines 338-387. *)
Definition screenComponent (st : RouterState) : MainComponent :=
  match currentScreen st with
  | home => PostLoginHomepage
  | doctors => DoctorSearch
  | medicine => MedicineOrdering
  | lab => LabTestBooking
  | ambulance => EmergencyServices
  | mental => MentalHealthSupport
  | ai_symptom_checker => AISymptomChecker
  | yoga => YogaExerciseTracker
  | nutrition => NutritionTracker
  | appointments => PersonalHealthDashboard
  | subscription => SubscriptionPage
  | chat => ChatSupport
  | profile => ProfileManagement
  | notifications => ComingSoon "Notifications"
  | wellness => ComingSoon "Wellness Tracking"
  | _ => PatientDashboard
  end.

Inductive View : Set :=
  | Loading
  | Professional (component : ProfessionalComponent)
  | HomepageWithChatbot
  | LoginPage (isSignupMode : bool)
  | RegistrationForm (isAfterSimpleSignup : bool)
  | WelcomeScreen
  | MainApp (trialBanner : bool) (screen : MainComponent) (tab : string)
      (registerModalOpen : bool).

(** Lines 405-522. *)
Definition view (sess : Session) (st : RouterState) : View :=
  if negb (isLoaded sess) then Loading
  else if isProfessionalMode st then Professional (professionalComponent st)
  else if negb (isSignedIn sess) then
    match currentScreen st with
    | login => LoginPage false
    | signup => LoginPage true
    | _ => HomepageWithChatbot
    end
  else if screen_eqb (currentScreen st) register then
    RegistrationForm (isTempAccount st)
  else if screen_eqb (currentScreen st) welcome then WelcomeScreen
  else
    MainApp (isTempAccount st) (screenComponent st) (activeTab sess st)
      (showRegisterModal st).

(** The callbacks that belong to the signed-in application. *)
Definition signed_in_callback (cb : Callback) : bool :=
  match cb with
  | CB_handleRegistrationComplete | CB_handleNavigation
  | CB_handleWelcomeComplete | CB_handleOpenRegisterModal
  | CB_handleCloseRegisterModal | CB_handleTabChange | CB_backToHome => true
  | _ => false
  end.

(** The screens [featureScreenMap] can yield. *)
Definition feature_screens : list Screen := [doctors; medicine; lab; ambulance].

(** ** Re-runs of the auth effect

    The auth effect lists [currentScreen], [pendingNavigation] and
    [userDataComplete] among its dependencies (line 99).  When a render's
    effects have changed one of them the component renders again and the
    auth effect runs again, on the new state; the profile effect, whose
    dependencies are the session alone (line 76), does not. *)
Definition authRerun (sess : Session) (st : RouterState) : RouterState :=
  authEffect sess st st.

(** The reaction to a session followed by the re-run it causes.  One
    re-run is enough: the auth effect leaves the state it yields alone. *)
Definition settle (sess : Session) (st : RouterState) : RouterState :=
  authRerun sess (onSessionChange sess st).

(** Where a second reaction to the same session changes nothing.  For a
    loaded, signed-in session with a user: with a target pending, when the
    profile is complete and the target is no authentication screen, or
    the profile is incomplete and the target is "register"; with nothing
    pending, when the profile is complete, or [userDataComplete] is
    false, or the router is on "register".  For any other session,
    everywhere. *)
Definition reaction_idempotent_at (sess : Session) (st : RouterState) : bool :=
  match isLoaded sess && isSignedIn sess, user sess with
  | true, Some u =>
      let complete := hasBasicInfo u || hasMetadata u in
      match pendingNavigation st with
      | Some target =>
          if complete then negb (on_auth_screen target)
          else screen_eqb target register
      | None =>
          complete || negb (userDataComplete st)
          || screen_eqb (currentScreen st) register
      end
  | _, _ => true
  end.

(** ** Sessions, users and states used as concrete inputs *)

Definition signed_out_session : Session :=
  {| isSignedIn := false; user := None; isLoaded := true |}.

(** A user fresh from sign-up: no name, no phone, no metadata. *)
Definition new_user : User :=
  {| firstName := None; lastName := None; primaryPhoneNumber := None;
     publicMetadata := None |}.

Definition complete_user : User :=
  {| firstName := Some "Asha"; lastName := Some "Rao";
     primaryPhoneNumber := Some "+910000000000";
     publicMetadata :=
       Some {| profileComplete := true; accountType := Some "full" |} |}.

Definition session_of (u : User) : Session :=
  {| isSignedIn := true; user := Some u; isLoaded := true |}.

(** A temporary account looking at the home screen. *)
Definition trial_home_state : RouterState :=
  setIsTempAccount true (setCurrentScreen home initialState).

(** The state after [navigateToFeature("lab")] on the signed-out homepage. *)
Definition lab_pending_state : RouterState :=
  setCurrentScreen signup (setPendingNavigation (Some lab) initialState).

(** ** How a rejected call shows in a handler's outcome

    [surfaces e fallback out], for a value [e] an awaited call rejected
    with and the outcome [out] of the handler: on null or undefined the
    handler returns no object (its promise rejects); on any other value it
    returns the failure whose text is the value's first long message,
    verbatim, when that is a non-empty string, and [fallback] when it is
    absent or empty. *)
Definition surfaces (e : Thrown) (fallback : string)
    (out : Awaited AuthResult) : Prop :=
  (e = Nullish -> exists t, out = Rejected t)
  /\ (forall m, e <> Nullish -> first_long_message e = Some m -> m <> "" ->
                out = Resolved (failed m))
  /\ (e <> Nullish ->
      first_long_message e = None \/ first_long_message e = Some "" ->
      out = Resolved (failed fallback)).

(** ** Collaborators used as concrete inputs *)

(** A sign-in that asks for a second factor. *)
Definition second_factor_signIn : SignInResource :=
  {| signIn_create := fun _ _ => Resolved "needs_second_factor" |}.

Definition rejecting_signIn (e : Thrown) : SignInResource :=
  {| signIn_create := fun _ _ => Rejected e |}.

(** An API error with a long message, one without, and a network error. *)
Definition long_error : Thrown :=
  ErrorValue "Password is incorrect."
    (Some [{| code := "form_password_incorrect";
              message := "Password is incorrect.";
              longMessage :=
                Some "Password is incorrect. Try again, or use another method." |}]).

Definition short_error : Thrown :=
  ErrorValue "Too many requests."
    (Some [{| code := "too_many_requests";
              message := "Too many requests.";
              longMessage := None |}]).

Definition network_error : Thrown := ErrorValue "Failed to fetch" None.

Definition resolving_update : UserUpdater := fun _ _ => Resolved tt.

Definition rejecting_update (e : Thrown) : UserUpdater := fun _ _ => Rejected e.

Definition sample_userData : UserData :=
  {| data_firstName := "Asha"; data_lastName := "Rao";
     data_dateOfBirth := "1990-01-01"; data_phone := "+910000000000";
     data_address := "12 Park Road" |}.

(** A backend that answers with a JSON object, and one out of reach. *)
Definition answering_backend : Proxy.Fetch :=
  fun _ _ =>
    Resolved
      {| Proxy.backend_status := 200;
         Proxy.json := Resolved (Proxy.JObject [("ok", Proxy.JBool true)]) |}.

Definition unreachable_backend : Proxy.Fetch := fun _ _ => Rejected network_error.

Definition sample_post : Proxy.Request :=
  {| Proxy.method := "POST";
     Proxy.body := Some (Proxy.JObject [("query", Proxy.JString "fever")]) |}.

Definition sample_get : Proxy.Request :=
  {| Proxy.method := "GET"; Proxy.body := None |}.


(** A user whose registration is recorded in the metadata while the
    account has no primary phone number. *)
Definition registered_without_phone : User :=
  {| firstName := Some "Asha"; lastName := Some "Rao";
     primaryPhoneNumber := None;
     publicMetadata :=
       Some {| profileComplete := true; accountType := Some "full" |} |}.

(** A sign-up whose [create] resolves with the given status and whose
    other calls resolve. *)
Definition signUp_with_status (status : string) : SignUpResource :=
  {| signUp_create := fun _ _ => Resolved status;
     prepareEmailAddressVerification := fun _ => Resolved tt;
     attemptEmailAddressVerification := fun _ => Resolved status |}.

(** A backend that answers an error status with a JSON body. *)
Definition failing_backend : Proxy.Fetch :=
  fun _ _ =>
    Resolved
      {| Proxy.backend_status := 503;
         Proxy.json :=
           Resolved (Proxy.JObject [("detail", Proxy.JString "overloaded")]) |}.

(** ** Proof automation *)

(** Case analysis on a session and a state, with the two flags computed
    from the user kept as arbitrary booleans. *)
Ltac session_cases sess st :=
  destruct sess as [signed [u |] loaded];
  destruct signed, loaded;
  unfold onSessionChange, authEffect, profileEffect; simpl;
  try (generalize (hasBasicInfo u || hasMetadata u), (isTemp u);
       intros complete temporary);
  destruct st as [cs ps pm pn ta sm udc]; simpl.

(** The ten ways through [handleSignup], with the outcome of each awaited
    call kept as an equation. *)
Ltac signup_cases signUp user update email password isSimple :=
  unfold handleSignup;
  destruct signUp as [su |]; simpl;
  [ destruct (signUp_create su email password) as [status | e] eqn:Hcreate;
    simpl;
    [ destruct (String.eqb_spec status "missing_requirements")
        as [-> | Hmissing]; simpl;
      [ destruct (prepareEmailAddressVerification su "email_code")
          as [[] | e] eqn:Hprepare; simpl
      | destruct (String.eqb_spec status "complete") as [-> | Hcomplete];
        simpl;
        [ destruct isSimple, user as [u |]; simpl;
          [ destruct (update u MarkTemporary) as [[] | e] eqn:Hupdate; simpl
          | | | ]
        | ] ]
    | ]
  | ].

(** Case analysis on membership in a short list of invocations. *)
Ltac each_call Hin :=
  simpl in Hin;
  repeat (destruct Hin as [Hin | Hin]; [subst |]);
  try contradiction.

(** * Properties *)

(** ** Screens and lookups *)

Lemma screen_eqb_eq (a b : Screen) : screen_eqb a b = true <-> a = b.
Proof.
  split.
  - destruct a, b; intros H; try reflexivity; vm_compute in H; discriminate H.
  - intros ->. destruct b; reflexivity.
Qed.

Lemma screen_eqb_refl (a : Screen) : screen_eqb a a = true.
Proof. apply screen_eqb_eq. reflexivity. Qed.

Lemma includes_In (xs : list Screen) (x : Screen) :
  includes xs x = true <-> In x xs.
Proof.
  unfold includes. rewrite existsb_exists. split.
  - intros [y [Hin Heq]]. apply screen_eqb_eq in Heq. subst y. exact Hin.
  - intros Hin. exists x. split; [exact Hin | apply screen_eqb_refl].
Qed.

Lemma includes_not_In (xs : list Screen) (x : Screen) :
  includes xs x = false <-> ~ In x xs.
Proof.
  rewrite <- includes_In. destruct (includes xs x); split; intro H;
    try reflexivity; try discriminate; try (intro H'; discriminate H').
  exfalso. apply H. reflexivity.
Qed.

(** Every screen is one of the twenty literals, and no two share one. *)
Lemma screen_literal_injective (a b : Screen) :
  screen_literal a = screen_literal b -> a = b.
Proof.
  intros H. apply screen_eqb_eq. unfold screen_eqb. rewrite H.
  apply String.eqb_refl.
Qed.

Lemma all_screens_complete (s : Screen) : In s all_screens.
Proof. destruct s; simpl; tauto. Qed.

(** A key that is no property at all gives [undefined]. *)
Lemma get_undefined (obj : ObjectLiteral) (key : string) :
  own_property obj key = None ->
  inherited_property key = None ->
  get obj key = VUndefined.
Proof. intros Hown Hinh. unfold get. rewrite Hown, Hinh. reflexivity. Qed.

(** ** Professional mode *)

(** C7.  Entering professional mode ([handleProfessionalPortalAccess])
    sets [isProfessionalMode] to true and [professionalScreen] to
    "professional-portal", whatever [professionalScreen] held before;
    the other cells keep their values. *)
Theorem enter_professional_mode (st : RouterState) :
  let st' := handleProfessionalPortalAccess st in
  isProfessionalMode st' = true
  /\ professionalScreen st' = Some "professional-portal"
  /\ currentScreen st' = currentScreen st
  /\ pendingNavigation st' = pendingNavigation st
  /\ isTempAccount st' = isTempAccount st
  /\ showRegisterModal st' = showRegisterModal st
  /\ userDataComplete st' = userDataComplete st.
Proof. simpl. repeat split. Qed.

(** C8.  Exiting professional mode ([handleBackToHomepage]), from every
    router state, sets [isProfessionalMode] to false, [professionalScreen]
    to null and [currentScreen] to "homepage"; the other cells keep their
    values. *)
Theorem exit_professional_mode (st : RouterState) :
  let st' := handleBackToHomepage st in
  isProfessionalMode st' = false
  /\ professionalScreen st' = None
  /\ currentScreen st' = homepage
  /\ pendingNavigation st' = pendingNavigation st
  /\ isTempAccount st' = isTempAccount st
  /\ showRegisterModal st' = showRegisterModal st
  /\ userDataComplete st' = userDataComplete st.
Proof. simpl. repeat split. Qed.

(** ** Restricted features of a temporary account *)

(** C2.  For a temporary account and a screen among appointments,
    ai-symptom-checker and wellness, [handleTrialFeatureAccess] sets
    [showRegisterModal] to true and leaves [currentScreen] and every other
    cell unchanged; for any other screen, or when the account is not
    temporary, it sets [currentScreen] to the screen (and touches nothing
    else). *)
Theorem trial_feature_access (st : RouterState) (S : Screen) :
  (isTempAccount st = true ->
   In S [appointments; ai_symptom_checker; wellness] ->
   exists st',
     handleTrialFeatureAccess (VScreen S) st = (st', [])
     /\ showRegisterModal st' = true
     /\ currentScreen st' = currentScreen st
     /\ professionalScreen st' = professionalScreen st
     /\ isProfessionalMode st' = isProfessionalMode st
     /\ pendingNavigation st' = pendingNavigation st
     /\ isTempAccount st' = isTempAccount st
     /\ userDataComplete st' = userDataComplete st)
  /\ (isTempAccount st = false
      \/ ~ In S [appointments; ai_symptom_checker; wellness] ->
      exists st',
        handleTrialFeatureAccess (VScreen S) st = (st', [])
        /\ currentScreen st' = S
        /\ showRegisterModal st' = showRegisterModal st
        /\ professionalScreen st' = professionalScreen st
        /\ isProfessionalMode st' = isProfessionalMode st
        /\ pendingNavigation st' = pendingNavigation st
        /\ isTempAccount st' = isTempAccount st
        /\ userDataComplete st' = userDataComplete st).
Proof.
  split.
  - intros Htemp Hin. apply includes_In in Hin.
    exists (setShowRegisterModal true st).
    unfold handleTrialFeatureAccess, includes_value, restricted_screens.
    rewrite Htemp, Hin. repeat split; simpl; auto.
  - intros Hother. exists (setCurrentScreen S st).
    unfold handleTrialFeatureAccess, includes_value, restricted_screens.
    destruct Hother as [Hfull | Hout].
    + rewrite Hfull. repeat split; simpl; auto.
    + apply includes_not_In in Hout. rewrite Hout, andb_false_r.
      repeat split; reflexivity.
Qed.

Lemma trial_feature_access_witness :
  (exists st',
     handleTrialFeatureAccess (VScreen wellness) trial_home_state = (st', [])
     /\ showRegisterModal st' = true
     /\ currentScreen st' = home)
  /\ (exists st',
        handleTrialFeatureAccess (VScreen chat) trial_home_state = (st', [])
        /\ currentScreen st' = chat
        /\ showRegisterModal st' = false).
Proof.
  split.
  - destruct (proj1 (trial_feature_access trial_home_state wellness))
      as [st' [Hrun [Hmodal [Hscreen _]]]].
    + reflexivity.
    + simpl. tauto.
    + exists st'. repeat split; assumption.
  - destruct (proj2 (trial_feature_access trial_home_state chat))
      as [st' [Hrun [Hscreen [Hmodal _]]]].
    + right. simpl. intros [H | [H | [H | []]]]; discriminate H.
    + exists st'. repeat split; assumption.
Defined.

(** ** Pending navigation *)

(** The reaction of a loaded, signed-in session to a pending target. *)
Lemma authEffect_pending (sess : Session) (snapshot : RouterState)
    (u : User) (T : Screen) :
  isLoaded sess = true ->
  isSignedIn sess = true ->
  user sess = Some u ->
  pendingNavigation snapshot = Some T ->
  authEffect sess snapshot
  = fun st => setPendingNavigation None (setCurrentScreen T st).
Proof.
  intros Hloaded Hin Huser Hpending. unfold authEffect.
  rewrite Hloaded, Hin, Huser, Hpending. reflexivity.
Qed.


(** A signed-out caller asking for one of the four features is sent to
    sign-up with the feature pending. *)
Lemma handleNavigateToFeature_signed_out (sess : Session) (key : string)
    (target : Screen) (st : RouterState) :
  isSignedIn sess = false ->
  own_property featureScreenMap key = Some target ->
  handleNavigateToFeature sess key st
  = (setCurrentScreen signup (setPendingNavigation (Some target) st), []).
Proof.
  intros Hout Hown. unfold handleNavigateToFeature, get.
  rewrite Hown, Hout. reflexivity.
Qed.

(** The state [settle] yields is left alone by the auth effect and by a
    further reaction to the same session. *)
Lemma settle_is_quiet (sess : Session) (st : RouterState) :
  authRerun sess (settle sess st) = settle sess st
  /\ onSessionChange sess (settle sess st) = settle sess st.
Proof.
  unfold settle, authRerun.
  session_cases sess st; try (split; reflexivity);
    try (destruct cs; split; reflexivity);
    destruct complete, udc, pn as [[] |], cs; split; reflexivity.
Qed.

(** C1, as stated, fails: a visitor asks for "lab" while signed out and
    signs up.  The reaction to the sign-in shows "lab" and clears the
    pending target; its own re-run finds the profile incomplete and
    moves to "register", where the router stays; completing the
    registration then leads to "welcome", the target being no longer
    pending. *)
Lemma pending_target_not_kept_for_new_user :
  handleNavigateToFeature signed_out_session "lab" initialState
  = (lab_pending_state, [])
  /\ currentScreen (onSessionChange (session_of new_user) lab_pending_state)
     = lab
  /\ currentScreen (settle (session_of new_user) lab_pending_state) = register
  /\ pendingNavigation (settle (session_of new_user) lab_pending_state) = None
  /\ authRerun (session_of new_user)
       (settle (session_of new_user) lab_pending_state)
     = settle (session_of new_user) lab_pending_state
  /\ currentScreen
       (fst (fst (handleRegistrationComplete (session_of new_user)
                    resolving_update sample_userData
                    (settle (session_of new_user) lab_pending_state))))
     = welcome.
Proof. repeat split. Qed.

(** C1, amended.  For a loaded, signed-in session with a user and a
    pending target [T], the reaction of the render that sees the sign-in
    sets [currentScreen] to [T] and [pendingNavigation] to null.  After
    the re-run of the auth effect this causes, nothing is pending and the
    router rests: on [T] when the profile of the session is complete and
    [T] is no authentication screen, on "register" when the profile is
    incomplete.  In particular [navigateToFeature("lab")] while signed
    out, from any state [st0], leaves [currentScreen] at "signup" with
    "lab" pending and stores nothing else; the reaction to the signed-in
    session then yields "lab" with nothing pending, which is where the
    router rests when the profile is complete. *)
Theorem pending_navigation_on_sign_in
    (signedOut signedIn : Session) (u : User) (st st0 : RouterState)
    (T : Screen) :
  isSignedIn signedOut = false ->
  isLoaded signedIn = true ->
  isSignedIn signedIn = true ->
  user signedIn = Some u ->
  pendingNavigation st = Some T ->
  (currentScreen (onSessionChange signedIn st) = T
   /\ pendingNavigation (onSessionChange signedIn st) = None)
  /\ (authRerun signedIn (settle signedIn st) = settle signedIn st
      /\ pendingNavigation (settle signedIn st) = None)
  /\ (hasBasicInfo u || hasMetadata u = true ->
      on_auth_screen T = false ->
      settle signedIn st = onSessionChange signedIn st
      /\ currentScreen (settle signedIn st) = T)
  /\ (hasBasicInfo u || hasMetadata u = false ->
      currentScreen (settle signedIn st) = register)
  /\ (exists st1,
        handleNavigateToFeature signedOut "lab" st0 = (st1, [])
        /\ currentScreen st1 = signup
        /\ pendingNavigation st1 = Some lab
        /\ currentScreen (onSessionChange signedIn st1) = lab
        /\ pendingNavigation (onSessionChange signedIn st1) = None
        /\ (hasBasicInfo u || hasMetadata u = true ->
            settle signedIn st1 = onSessionChange signedIn st1
            /\ currentScreen (settle signedIn st1) = lab
            /\ pendingNavigation (settle signedIn st1) = None)).
Proof.
  intros Hout Hloaded Hin Huser Hpending.
  split; [| split; [| split; [| split]]].
  - unfold onSessionChange.
    rewrite (authEffect_pending signedIn st Hloaded Hin Huser Hpending).
    split; reflexivity.
  - split; [apply settle_is_quiet |].
    unfold settle, authRerun, onSessionChange.
    rewrite (authEffect_pending signedIn st Hloaded Hin Huser Hpending).
    unfold authEffect, profileEffect. rewrite Hloaded, Hin, Huser. simpl.
    destruct (negb (hasBasicInfo u || hasMetadata u) && negb (screen_eqb T register));
      [reflexivity |].
    destruct (on_auth_screen T); reflexivity.
  - intros Hcomplete Hscreen.
    unfold settle, authRerun, onSessionChange.
    rewrite (authEffect_pending signedIn st Hloaded Hin Huser Hpending).
    unfold authEffect, profileEffect. rewrite Hloaded, Hin, Huser. simpl.
    rewrite Hcomplete, Hscreen. split; reflexivity.
  - intros Hincomplete.
    unfold settle, authRerun, onSessionChange.
    rewrite (authEffect_pending signedIn st Hloaded Hin Huser Hpending).
    unfold authEffect, profileEffect. rewrite Hloaded, Hin, Huser. simpl.
    rewrite Hincomplete. simpl.
    destruct (screen_eqb T register) eqn:Hregister; simpl.
    + apply screen_eqb_eq in Hregister. subst T. reflexivity.
    + reflexivity.
  - exists (setCurrentScreen signup (setPendingNavigation (Some lab) st0)).
    split.
    { apply handleNavigateToFeature_signed_out; [exact Hout | reflexivity]. }
    split; [reflexivity |]. split; [reflexivity |].
    unfold settle, authRerun, onSessionChange, authEffect, profileEffect.
    rewrite Hloaded, Hin, Huser. simpl.
    split; [reflexivity |]. split; [reflexivity |].
    intros Hcomplete. rewrite Hcomplete. repeat split.
Qed.

Lemma pending_navigation_on_sign_in_witness :
  currentScreen
    (settle (session_of complete_user)
       (setPendingNavigation (Some doctors) initialState)) = doctors
  /\ currentScreen
       (settle (session_of new_user)
          (setPendingNavigation (Some doctors) initialState)) = register
  /\ exists st1,
       handleNavigateToFeature signed_out_session "lab" initialState = (st1, [])
       /\ currentScreen (settle (session_of complete_user) st1) = lab
       /\ pendingNavigation (settle (session_of complete_user) st1) = None.
Proof.
  destruct (@pending_navigation_on_sign_in
              signed_out_session (session_of complete_user) complete_user
              (setPendingNavigation (Some doctors) initialState) initialState
              doctors eq_refl eq_refl eq_refl eq_refl eq_refl)
    as [_ [_ [Hcomplete [_ [st1 [Hrun [_ [_ [_ [_ Hlab]]]]]]]]]].
  destruct (@pending_navigation_on_sign_in
              signed_out_session (session_of new_user) new_user
              (setPendingNavigation (Some doctors) initialState) initialState
              doctors eq_refl eq_refl eq_refl eq_refl eq_refl)
    as [_ [_ [_ [Hincomplete _]]]].
  split; [exact (proj2 (Hcomplete eq_refl eq_refl)) |].
  split; [exact (Hincomplete eq_refl) |].
  exists st1. split; [exact Hrun |].
  destruct (Hlab eq_refl) as [_ [Hscreen Hnone]]. split; assumption.
Defined.

(** ** Repeating the session reaction *)

(** The scenario of the specification, run on the concrete sessions. *)
Example lab_scenario :
  handleNavigateToFeature signed_out_session "lab" initialState
  = (lab_pending_state, [])
  /\ onSessionChange (session_of complete_user) lab_pending_state
     = setUserDataComplete true (setCurrentScreen lab initialState).
Proof. split; reflexivity. Qed.

(** The state with "lab" pending is reached from the initial state by the
    homepage's own callback. *)
Lemma lab_pending_state_reachable : reachable lab_pending_state.
Proof.
  apply reachable_step with (st := initialState); [apply reachable_initial |].
  apply step_event
    with (sess := signed_out_session) (ev := E_navigateToFeature "lab");
    reflexivity.
Qed.

(** C9, as stated, fails: a visitor asks for "lab" while signed out and
    then signs up.  The first reaction to the new session consumes the
    pending target and shows "lab"; the same reaction applied again finds
    the profile incomplete and moves to "register". *)
Lemma session_reaction_not_idempotent :
  reachable lab_pending_state
  /\ currentScreen (onSessionChange (session_of new_user) lab_pending_state)
     = lab
  /\ currentScreen
       (onSessionChange (session_of new_user)
          (onSessionChange (session_of new_user) lab_pending_state))
     = register
  /\ onSessionChange (session_of new_user)
       (onSessionChange (session_of new_user) lab_pending_state)
     <> onSessionChange (session_of new_user) lab_pending_state.
Proof.
  split; [exact lab_pending_state_reachable |].
  split; [reflexivity |]. split; [reflexivity |].
  intros H. apply (f_equal currentScreen) in H. discriminate H.
Qed.

(** A third reaction to the same session never changes what the second
    produced. *)
Lemma session_reaction_settles (sess : Session) (st : RouterState) :
  onSessionChange sess (onSessionChange sess (onSessionChange sess st))
  = onSessionChange sess (onSessionChange sess st).
Proof.
  session_cases sess st; try reflexivity;
    try (destruct cs; reflexivity);
    destruct complete, udc, pn as [[] |], cs; reflexivity.
Qed.

(** C9, amended.  A second reaction to the same session yields the
    state of the first exactly in these cases.  For a session that is not
    loaded, not signed in or without a user: always.  For a loaded,
    signed-in session with a user: with a target pending, when the
    profile is complete and the target is no authentication screen, or
    the profile is incomplete and the target is "register"; with nothing
    pending, when the profile is complete, or [userDataComplete] is
    false, or the router is on "register".  In every case a third
    reaction changes nothing more than the second. *)
Theorem session_reaction_idempotent_iff (sess : Session) (st : RouterState) :
  (onSessionChange sess (onSessionChange sess st) = onSessionChange sess st
   <-> reaction_idempotent_at sess st = true)
  /\ onSessionChange sess (onSessionChange sess (onSessionChange sess st))
     = onSessionChange sess (onSessionChange sess st).
Proof.
  split; [| apply session_reaction_settles].
  unfold reaction_idempotent_at.
  session_cases sess st;
    try (split; reflexivity);
    try (destruct cs; split; reflexivity);
    destruct complete, udc, pn as [[] |], cs; simpl;
    split; intros H; try reflexivity; discriminate H.
Qed.

Lemma session_reaction_idempotent_iff_witness :
  onSessionChange (session_of complete_user)
    (onSessionChange (session_of complete_user) initialState)
  = onSessionChange (session_of complete_user) initialState
  /\ onSessionChange (session_of complete_user)
       (onSessionChange (session_of complete_user) lab_pending_state)
     = onSessionChange (session_of complete_user) lab_pending_state
  /\ onSessionChange (session_of new_user)
       (onSessionChange (session_of new_user) lab_pending_state)
     <> onSessionChange (session_of new_user) lab_pending_state.
Proof.
  split; [| split].
  - apply (proj1 (session_reaction_idempotent_iff
                    (session_of complete_user) initialState)).
    reflexivity.
  - apply (proj1 (session_reaction_idempotent_iff
                    (session_of complete_user) lab_pending_state)).
    reflexivity.
  - intros H.
    apply (proj1 (session_reaction_idempotent_iff
                    (session_of new_user) lab_pending_state)) in H.
    discriminate H.
Defined.

(** ** The professional-mode invariant *)

(** C3, as stated, fails: the invariant holds in the initial state, and
    [handleProfessionalPortalSelection], taken as an operation on an
    arbitrary state, stores a portal without touching
    [isProfessionalMode]. *)
Lemma portal_selection_breaks_invariant :
  professional_invariant initialState
  /\ professionalScreen
       (handleProfessionalPortalSelection "doctor-dashboard" initialState)
     = Some "doctor-dashboard"
  /\ isProfessionalMode
       (handleProfessionalPortalSelection "doctor-dashboard" initialState)
     = false
  /\ ~ professional_invariant
         (handleProfessionalPortalSelection "doctor-dashboard" initialState).
Proof.
  split; [intros H; exfalso; apply H; reflexivity |].
  split; [reflexivity |]. split; [reflexivity |].
  intros H. unfold professional_invariant in H. simpl in H.
  assert (Hfalse : false = true) by (apply H; discriminate).
  discriminate Hfalse.
Qed.

(** The two reactions write neither professional cell. *)
Lemma profileEffect_professional (sess : Session) (st : RouterState) :
  professionalScreen (profileEffect sess st) = professionalScreen st
  /\ isProfessionalMode (profileEffect sess st) = isProfessionalMode st.
Proof.
  unfold profileEffect. destruct (isSignedIn sess), (user sess); split; reflexivity.
Qed.

Lemma authEffect_professional (sess : Session) (snapshot st : RouterState) :
  professionalScreen (authEffect sess snapshot st) = professionalScreen st
  /\ isProfessionalMode (authEffect sess snapshot st) = isProfessionalMode st.
Proof.
  unfold authEffect.
  destruct (negb (isLoaded sess)); [split; reflexivity |].
  destruct (isSignedIn sess && is_some (user sess)).
  - destruct (pendingNavigation snapshot); [split; reflexivity |].
    destruct (negb (userDataComplete snapshot)
              && negb (screen_eqb (currentScreen snapshot) register));
      [split; reflexivity |].
    destruct (on_auth_screen (currentScreen snapshot)); split; reflexivity.
  - destruct (negb (isSignedIn sess)
              && (screen_eqb (currentScreen snapshot) home
                  || screen_eqb (currentScreen snapshot) welcome));
      split; reflexivity.
Qed.

(** Neither do the handlers that store a looked-up value, whatever the
    key. *)
Lemma storeCurrentScreen_professional (v : Value) (st : RouterState) :
  professionalScreen (fst (storeCurrentScreen v st)) = professionalScreen st
  /\ isProfessionalMode (fst (storeCurrentScreen v st)) = isProfessionalMode st.
Proof. destruct v; split; reflexivity. Qed.

Lemma handleTrialFeatureAccess_professional (v : Value) (st : RouterState) :
  professionalScreen (fst (handleTrialFeatureAccess v st)) = professionalScreen st
  /\ isProfessionalMode (fst (handleTrialFeatureAccess v st))
     = isProfessionalMode st.
Proof.
  unfold handleTrialFeatureAccess.
  destruct (isTempAccount st && includes_value restricted_screens v).
  - split; reflexivity.
  - apply storeCurrentScreen_professional.
Qed.

Lemma handleNavigateToFeature_professional
    (sess : Session) (key : string) (st : RouterState) :
  professionalScreen (fst (handleNavigateToFeature sess key st))
  = professionalScreen st
  /\ isProfessionalMode (fst (handleNavigateToFeature sess key st))
     = isProfessionalMode st.
Proof.
  unfold handleNavigateToFeature.
  destruct (get featureScreenMap key) as [| s | m]; simpl;
    destruct (isSignedIn sess); split; reflexivity.
Qed.

Lemma handleRegistrationComplete_professional
    (sess : Session) (update : UserUpdater) (userData : UserData)
    (st : RouterState) :
  let st' := fst (fst (handleRegistrationComplete sess update userData st)) in
  professionalScreen st' = professionalScreen st
  /\ isProfessionalMode st' = isProfessionalMode st.
Proof.
  unfold handleRegistrationComplete.
  destruct (user sess) as [u |]; [| split; reflexivity].
  destruct (update u (registration_request u userData)); [| split; reflexivity].
  unfold registration_updates.
  destruct (pendingNavigation st); split; reflexivity.
Qed.

(** The portal's two own callbacks are mounted only in professional mode. *)
Lemma portal_callbacks_need_professional_mode
    (sess : Session) (st : RouterState) :
  offers sess st CB_handleProfessionalPortalSelection = true
  \/ offers sess st CB_handleBackToProfessionalPortal = true ->
  isProfessionalMode st = true.
Proof.
  unfold offers, render.
  destruct (isLoaded sess); simpl; [| intros [H | H]; discriminate H].
  destruct (isProfessionalMode st); [reflexivity |].
  destruct (isSignedIn sess); simpl.
  - destruct st as [cs ps pm pn ta sm udc]; simpl.
    destruct cs, ta; simpl; intros [H | H]; discriminate H.
  - destruct (currentScreen st); simpl; intros [H | H]; discriminate H.
Qed.

(** Every handler keeps the invariant, the two portal callbacks when
    professional mode is on. *)
Lemma perform_keeps_invariant (sess : Session) (ev : Event) (st : RouterState) :
  sets_portal_only ev = false \/ isProfessionalMode st = true ->
  professional_invariant st ->
  professional_invariant (fst (perform sess ev st)).
Proof.
  unfold professional_invariant. intros Hmode Hinv.
  destruct ev; simpl; try exact Hinv.
  - intros H. exfalso. apply H. reflexivity.
  - destruct (handleRegistrationComplete_professional sess update userData st)
      as [-> ->]. exact Hinv.
  - reflexivity.
  - destruct (handleNavigateToFeature_professional sess featureType st)
      as [-> ->]. exact Hinv.
  - intros _. destruct Hmode as [Hmode | Hmode]; [discriminate Hmode | exact Hmode].
  - intros _. destruct Hmode as [Hmode | Hmode]; [discriminate Hmode | exact Hmode].
  - unfold handleTabChange.
    destruct (handleTrialFeatureAccess_professional
                (or_else (get tabScreenMap tab) (VScreen home)) st) as [-> ->].
    exact Hinv.
Qed.

Lemma onSessionChange_keeps_invariant (sess : Session) (st : RouterState) :
  professional_invariant st -> professional_invariant (onSessionChange sess st).
Proof.
  unfold professional_invariant, onSessionChange. intros Hinv.
  destruct (authEffect_professional sess st (profileEffect sess st)) as [-> ->].
  destruct (profileEffect_professional sess st) as [-> ->]. exact Hinv.
Qed.

Lemma offered_portal_event (sess : Session) (ev : Event) (st : RouterState) :
  offers sess st (callback_of ev) = true ->
  sets_portal_only ev = true ->
  isProfessionalMode st = true.
Proof.
  intros Hoffer Hportal.
  apply (@portal_callbacks_need_professional_mode sess st).
  destruct ev; try discriminate Hportal; [left | right]; exact Hoffer.
Qed.

(** Every step keeps the invariant. *)
Lemma step_keeps_invariant (st st' : RouterState) :
  professional_invariant st -> step st st' -> professional_invariant st'.
Proof.
  intros Hinv Hstep.
  destruct Hstep as [sess st | sess st | sess st | sess ev st st' Hoffer Hrun].
  - apply onSessionChange_keeps_invariant. exact Hinv.
  - unfold professional_invariant.
    destruct (profileEffect_professional sess st) as [-> ->]. exact Hinv.
  - unfold professional_invariant.
    destruct (authEffect_professional sess st st) as [-> ->]. exact Hinv.
  - replace st' with (fst (perform sess ev st)) by (rewrite Hrun; reflexivity).
    apply perform_keeps_invariant; [| exact Hinv].
    destruct (sets_portal_only ev) eqn:Hportal; [right | left; reflexivity].
    exact (offered_portal_event sess ev st Hoffer Hportal).
Qed.

Lemma reachable_invariant (st : RouterState) :
  reachable st -> professional_invariant st.
Proof.
  induction 1 as [| st st' _ IH Hstep].
  - intros H. exfalso. apply H. reflexivity.
  - exact (step_keeps_invariant IH Hstep).
Qed.

(** C3, amended.  The predicate ([professionalScreen] non-null only if
    [isProfessionalMode] is true) holds in the initial state and is
    preserved, from every router state, by the session reaction and by
    every handler except portal selection and the return to the portal,
    which store a professional screen without setting
    [isProfessionalMode]: these two preserve it from every state in which
    [isProfessionalMode] is true, and the rendered tree offers them in no
    other state.  Hence the predicate holds in every state reachable from
    the initial state by session reactions and offered callbacks. *)
Theorem professional_invariant_preserved
    (sess : Session) (ev : Event) (st : RouterState) :
  professional_invariant initialState
  /\ (professional_invariant st ->
      professional_invariant (onSessionChange sess st))
  /\ (sets_portal_only ev = false \/ isProfessionalMode st = true ->
      professional_invariant st ->
      professional_invariant (fst (perform sess ev st)))
  /\ (offers sess st (callback_of ev) = true ->
      sets_portal_only ev = true ->
      isProfessionalMode st = true)
  /\ (reachable st -> professional_invariant st).
Proof.
  split; [intros H; exfalso; apply H; reflexivity |].
  split; [apply onSessionChange_keeps_invariant |].
  split; [apply perform_keeps_invariant |].
  split; [apply offered_portal_event | apply reachable_invariant].
Qed.

Lemma professional_invariant_preserved_witness :
  reachable
    (handleProfessionalPortalSelection "doctor-dashboard"
       (handleProfessionalPortalAccess initialState))
  /\ professional_invariant
       (handleProfessionalPortalSelection "doctor-dashboard"
          (handleProfessionalPortalAccess initialState))
  /\ professional_invariant
       (fst (perform signed_out_session (E_navigation doctors) initialState)).
Proof.
  assert (Hreach :
            reachable
              (handleProfessionalPortalSelection "doctor-dashboard"
                 (handleProfessionalPortalAccess initialState))).
  { apply reachable_step
      with (st := handleProfessionalPortalAccess initialState).
    - apply reachable_step with (st := initialState);
        [apply reachable_initial |].
      apply step_event
        with (sess := signed_out_session) (ev := E_professionalPortalAccess);
        reflexivity.
    - apply step_event
        with (sess := signed_out_session)
             (ev := E_professionalPortalSelection "doctor-dashboard");
        reflexivity. }
  split; [exact Hreach |]. split.
  - exact (proj2 (proj2 (proj2 (proj2
             (professional_invariant_preserved signed_out_session
                (E_professionalPortalSelection "doctor-dashboard")
                (handleProfessionalPortalSelection "doctor-dashboard"
                   (handleProfessionalPortalAccess initialState))))))
             Hreach).
  - destruct (professional_invariant_preserved signed_out_session
                (E_navigation doctors) initialState)
      as [Hinit [_ [Hkeep _]]].
    apply Hkeep; [left; reflexivity | exact Hinit].
Defined.

(** ** Registration *)

(** C4.  When the awaited [user.update] of [handleRegistrationComplete]
    rejects, the error is logged and the router state is returned as it
    was, every cell unchanged, so a user on the registration screen stays
    there.  When it resolves, [userDataComplete] becomes true,
    [isTempAccount] and [showRegisterModal] false, and the pending
    navigation is resolved: [currentScreen] becomes the pending target and
    [pendingNavigation] null, or [currentScreen] becomes "welcome" when
    nothing was pending; nothing is logged. *)
Theorem registration_outcomes
    (sess : Session) (u : User) (update : UserUpdater)
    (userData : UserData) (st : RouterState) :
  user sess = Some u ->
  (forall e,
     update u (registration_request u userData) = Rejected e ->
     exists calls,
       handleRegistrationComplete sess update userData st
       = (st, calls,
          [{| console_label := "Failed to update user profile:";
              console_error := e |}])
       /\ (currentScreen st = register ->
           currentScreen
             (fst (fst (handleRegistrationComplete sess update userData st)))
           = register))
  /\ (forall r,
        update u (registration_request u userData) = Resolved r ->
        exists st' calls,
          handleRegistrationComplete sess update userData st = (st', calls, [])
          /\ userDataComplete st' = true
          /\ isTempAccount st' = false
          /\ showRegisterModal st' = false
          /\ pendingNavigation st' = None
          /\ currentScreen st'
             = match pendingNavigation st with
               | Some target => target
               | None => welcome
               end
          /\ professionalScreen st' = professionalScreen st
          /\ isProfessionalMode st' = isProfessionalMode st).
Proof.
  intros Huser. unfold handleRegistrationComplete. rewrite Huser. split.
  - intros e Hrejected. rewrite Hrejected. eexists. split; [reflexivity |].
    simpl. auto.
  - intros r Hresolved. rewrite Hresolved. unfold registration_updates.
    destruct (pendingNavigation st) as [target |] eqn:Hpending;
      do 2 eexists; (split; [reflexivity |]); simpl; repeat split;
      assumption.
Qed.

Lemma registration_outcomes_witness :
  (exists calls,
     handleRegistrationComplete (session_of new_user)
       (rejecting_update network_error) sample_userData
       (setCurrentScreen register initialState)
     = (setCurrentScreen register initialState, calls,
        [{| console_label := "Failed to update user profile:";
            console_error := network_error |}]))
  /\ (exists st' calls,
        handleRegistrationComplete (session_of new_user) resolving_update
          sample_userData
          (setCurrentScreen register (setPendingNavigation (Some lab) initialState))
        = (st', calls, [])
        /\ userDataComplete st' = true
        /\ currentScreen st' = lab
        /\ pendingNavigation st' = None).
Proof.
  split.
  - destruct (proj1 (@registration_outcomes (session_of new_user) new_user
                       (rejecting_update network_error) sample_userData
                       (setCurrentScreen register initialState) eq_refl)
                network_error eq_refl)
      as [calls [Hrun _]].
    exists calls. exact Hrun.
  - destruct (proj2 (@registration_outcomes (session_of new_user) new_user
                       resolving_update sample_userData
                       (setCurrentScreen register
                          (setPendingNavigation (Some lab) initialState))
                       eq_refl)
                tt eq_refl)
      as [st' [calls [Hrun [Hcomplete [_ [_ [Hpending [Hscreen _]]]]]]]].
    exists st', calls. repeat split; assumption.
Defined.

(** ** Failure results of login, signup and verification *)

Lemma message_or_verbatim (e : Thrown) (fallback m : string) :
  first_long_message e = Some m -> m <> "" -> message_or e fallback = m.
Proof.
  intros Hm Hne. unfold message_or. rewrite Hm.
  destruct (String.eqb_spec m ""); [contradiction | reflexivity].
Qed.

Lemma message_or_fallback (e : Thrown) (fallback : string) :
  first_long_message e = None \/ first_long_message e = Some "" ->
  message_or e fallback = fallback.
Proof. unfold message_or. intros [-> | ->]; reflexivity. Qed.

(** The catch block gives what [surfaces] describes. *)
Lemma caught_surfaces (e : Thrown) (fallback : string) :
  surfaces e fallback (caught e fallback).
Proof.
  unfold surfaces. destruct e as [| msg errs]; unfold caught.
  - split; [intros _; eexists; reflexivity |].
    split; [intros m H; contradiction | intros H; contradiction].
  - split; [intros H; discriminate H |]. split.
    + intros m _ Hm Hne.
      rewrite (message_or_verbatim (ErrorValue msg errs) fallback Hm Hne).
      reflexivity.
    + intros _ H.
      rewrite (message_or_fallback (ErrorValue msg errs) fallback H).
      reflexivity.
Qed.

Lemma eqb_false_of_ne (a b : string) : a <> b -> String.eqb a b = false.
Proof. intros H. apply String.eqb_neq. exact H. Qed.

(** C5, as stated, fails, in three ways.  A sign-in that resolves with a
    status other than "complete" is reported as a failure although the
    provider raised no error, with a text of the handler's own; an error
    of the provider without a long message is reported as "Login
    failed", which is neither its message nor the message of its first
    entry; and when the provider rejects with null the handler returns
    no result at all. *)
Lemma login_failure_text_not_from_provider :
  (handleLogin (Some second_factor_signIn) "asha@example.org" "secret"
   = (Resolved (failed "Additional verification required"),
      [{| operation := SignInCreate "asha@example.org" "secret";
          rejection := None |}]))
  /\ (fst (handleLogin (Some (rejecting_signIn short_error))
             "asha@example.org" "secret")
      = Resolved (failed "Login failed")
      /\ short_error
         = ErrorValue "Too many requests."
             (Some [{| code := "too_many_requests";
                       message := "Too many requests.";
                       longMessage := None |}])
      /\ "Login failed" <> "Too many requests.")
  /\ (forall r,
        fst (handleLogin (Some (rejecting_signIn Nullish))
               "asha@example.org" "secret")
        <> Resolved r).
Proof.
  split; [reflexivity |]. split.
  - split; [reflexivity |]. split; [reflexivity | discriminate].
  - intros r H. discriminate H.
Qed.

(** C5, amended.  For every input to login, signup and email
    verification.  When the resource is unavailable, or an awaited call
    resolves with a status the handler does not accept, the handler
    returns [{success: false, error}] with a fixed text of its own.  When
    an awaited call rejects with a value other than null or undefined,
    it returns [{success: false, error}] whose text is the value's
    [errors[0].longMessage] verbatim when that is a non-empty string, and
    the operation's fixed text ("Login failed", "Signup failed",
    "Verification failed") otherwise.  When an awaited call rejects with
    null or undefined, the catch block throws in its turn and the handler
    returns no result.  In each case the invocations made are the ones
    listed, each method at most once and none after a rejection:
    nothing is retried. *)
Theorem auth_failures_reported
    (signIn : option SignInResource) (signUp : option SignUpResource)
    (user : option User) (update : UserUpdater)
    (email password verificationCode : string) (isSimple : bool) :
  ((signIn = None ->
    handleLogin signIn email password
    = (Resolved (failed "Login not available"), []))
   /\ (forall si status,
         signIn = Some si ->
         signIn_create si email password = Resolved status ->
         status <> "complete" ->
         handleLogin signIn email password
         = (Resolved (failed "Additional verification required"),
            [{| operation := SignInCreate email password;
                rejection := None |}]))
   /\ (forall si e,
         signIn = Some si ->
         signIn_create si email password = Rejected e ->
         snd (handleLogin signIn email password)
         = [{| operation := SignInCreate email password;
               rejection := Some e |}]
         /\ surfaces e "Login failed"
              (fst (handleLogin signIn email password))))
  /\ ((signUp = None ->
       handleSignup signUp user update email password isSimple
       = (Resolved (failed "Signup not available"), []))
      /\ (forall su status,
            signUp = Some su ->
            signUp_create su email password = Resolved status ->
            status <> "missing_requirements" ->
            status <> "complete" ->
            handleSignup signUp user update email password isSimple
            = (Resolved (failed "Signup incomplete"),
               [{| operation := SignUpCreate email password;
                   rejection := None |}]))
      /\ (forall su e,
            signUp = Some su ->
            signUp_create su email password = Rejected e ->
            snd (handleSignup signUp user update email password isSimple)
            = [{| operation := SignUpCreate email password;
                  rejection := Some e |}]
            /\ surfaces e "Signup failed"
                 (fst (handleSignup signUp user update email password
                         isSimple)))
      /\ (forall su e,
            signUp = Some su ->
            signUp_create su email password = Resolved "missing_requirements" ->
            prepareEmailAddressVerification su "email_code" = Rejected e ->
            snd (handleSignup signUp user update email password isSimple)
            = [{| operation := SignUpCreate email password;
                  rejection := None |};
               {| operation := PrepareEmailAddressVerification "email_code";
                  rejection := Some e |}]
            /\ surfaces e "Signup failed"
                 (fst (handleSignup signUp user update email password
                         isSimple)))
      /\ (forall su u e,
            signUp = Some su ->
            signUp_create su email password = Resolved "complete" ->
            isSimple = true ->
            user = Some u ->
            update u MarkTemporary = Rejected e ->
            snd (handleSignup signUp user update email password isSimple)
            = [{| operation := SignUpCreate email password;
                  rejection := None |};
               {| operation := UserUpdate MarkTemporary;
                  rejection := Some e |}]
            /\ surfaces e "Signup failed"
                 (fst (handleSignup signUp user update email password
                         isSimple))))
  /\ ((signUp = None ->
       handleVerifyEmail signUp verificationCode
       = (Resolved (failed "Verification not available"), []))
      /\ (forall su status,
            signUp = Some su ->
            attemptEmailAddressVerification su verificationCode
            = Resolved status ->
            status <> "complete" ->
            handleVerifyEmail signUp verificationCode
            = (Resolved (failed "Verification failed"),
               [{| operation := AttemptEmailAddressVerification verificationCode;
                   rejection := None |}]))
      /\ (forall su e,
            signUp = Some su ->
            attemptEmailAddressVerification su verificationCode = Rejected e ->
            snd (handleVerifyEmail signUp verificationCode)
            = [{| operation := AttemptEmailAddressVerification verificationCode;
                  rejection := Some e |}]
            /\ surfaces e "Verification failed"
                 (fst (handleVerifyEmail signUp verificationCode)))).
Proof.
  split; [| split].
  - split; [intros ->; reflexivity |]. split.
    + intros si status -> Hcreate Hstatus. unfold handleLogin.
      rewrite Hcreate, (eqb_false_of_ne Hstatus). reflexivity.
    + intros si e -> Hcreate. unfold handleLogin. rewrite Hcreate.
      split; [reflexivity | apply caught_surfaces].
  - split; [intros ->; reflexivity |]. split; [| split; [| split]].
    + intros su status -> Hcreate Hmissing Hcomplete. unfold handleSignup.
      rewrite Hcreate, (eqb_false_of_ne Hmissing), (eqb_false_of_ne Hcomplete).
      reflexivity.
    + intros su e -> Hcreate. unfold handleSignup. rewrite Hcreate.
      split; [reflexivity | apply caught_surfaces].
    + intros su e -> Hcreate Hprepare. unfold handleSignup.
      rewrite Hcreate, Hprepare.
      split; [reflexivity | apply caught_surfaces].
    + intros su u e -> Hcreate -> -> Hupdate. unfold handleSignup.
      rewrite Hcreate, Hupdate.
      split; [reflexivity | apply caught_surfaces].
  - split; [intros ->; reflexivity |]. split.
    + intros su status -> Hattempt Hstatus. unfold handleVerifyEmail.
      rewrite Hattempt, (eqb_false_of_ne Hstatus). reflexivity.
    + intros su e -> Hattempt. unfold handleVerifyEmail. rewrite Hattempt.
      split; [reflexivity | apply caught_surfaces].
Qed.

Lemma auth_failures_reported_witness :
  fst (handleLogin (Some (rejecting_signIn long_error))
         "asha@example.org" "secret")
  = Resolved
      (failed "Password is incorrect. Try again, or use another method.")
  /\ fst (handleLogin (Some (rejecting_signIn network_error))
            "asha@example.org" "secret")
     = Resolved (failed "Login failed")
  /\ (exists t,
        fst (handleLogin (Some (rejecting_signIn Nullish))
               "asha@example.org" "secret")
        = Rejected t)
  /\ handleLogin (Some second_factor_signIn) "asha@example.org" "secret"
     = (Resolved (failed "Additional verification required"),
        [{| operation := SignInCreate "asha@example.org" "secret";
            rejection := None |}]).
Proof.
  split; [| split; [| split]].
  - destruct (@auth_failures_reported
                (Some (rejecting_signIn long_error)) None None resolving_update
                "asha@example.org" "secret" "123456" false)
      as [[_ [_ Hthrown]] _].
    destruct (Hthrown (rejecting_signIn long_error) long_error
                eq_refl eq_refl) as [_ [_ [Hverbatim _]]].
    apply Hverbatim; [discriminate | reflexivity | discriminate].
  - destruct (@auth_failures_reported
                (Some (rejecting_signIn network_error)) None None
                resolving_update "asha@example.org" "secret" "123456" false)
      as [[_ [_ Hthrown]] _].
    destruct (Hthrown (rejecting_signIn network_error) network_error
                eq_refl eq_refl) as [_ [_ [_ Hfallback]]].
    apply Hfallback; [discriminate | left; reflexivity].
  - destruct (@auth_failures_reported
                (Some (rejecting_signIn Nullish)) None None
                resolving_update "asha@example.org" "secret" "123456" false)
      as [[_ [_ Hthrown]] _].
    destruct (Hthrown (rejecting_signIn Nullish) Nullish
                eq_refl eq_refl) as [_ [Hnull _]].
    apply Hnull. reflexivity.
  - destruct (@auth_failures_reported
                (Some second_factor_signIn) None None
                resolving_update "asha@example.org" "secret" "123456" false)
      as [[_ [Hstatus _]] _].
    apply (Hstatus second_factor_signIn "needs_second_factor");
      [reflexivity | reflexivity | discriminate].
Defined.

(** ** The proxy handler *)

(** C6.  A request whose method is not POST is answered with status 405
    and an [{error}] body, and the backend is not contacted.  A POST
    request is forwarded once, to the configured URL, with method POST,
    the header Content-Type: application/json and the request's own body
    serialised; when the backend answers with JSON the handler returns
    that JSON with status 200, and when the request to the backend fails
    it returns an [{error}] body with status 500. *)
Theorem proxy_handler_responses
    (BACKEND_URL : option string) (fetch : Proxy.Fetch) (req : Proxy.Request) :
  (Proxy.method req <> "POST" ->
   Proxy.handler BACKEND_URL fetch req
   = ({| Proxy.status := 405;
         Proxy.payload :=
           Proxy.JObject [("error", Proxy.JString "Method not allowed")] |},
      []))
  /\ (Proxy.method req = "POST" ->
      let init :=
        {| Proxy.fetch_method := "POST";
           Proxy.fetch_headers := [("Content-Type", "application/json")];
           Proxy.fetch_body := option_map Proxy.JSON_stringify (Proxy.body req) |}
      in
      (exists logged,
         snd (Proxy.handler BACKEND_URL fetch req)
         = Proxy.Fetched BACKEND_URL init :: map Proxy.Logged logged)
      /\ (forall backendResponse data,
         fetch BACKEND_URL init = Resolved backendResponse ->
         Proxy.json backendResponse = Resolved data ->
         Proxy.handler BACKEND_URL fetch req
         = ({| Proxy.status := 200; Proxy.payload := data |},
            [Proxy.Fetched BACKEND_URL init]))
      /\ (forall err,
            fetch BACKEND_URL init = Rejected err ->
            Proxy.handler BACKEND_URL fetch req
            = ({| Proxy.status := 500;
                  Proxy.payload :=
                    Proxy.JObject
                      [("error", Proxy.JString "Failed to reach backend")] |},
               [Proxy.Fetched BACKEND_URL init; Proxy.Logged err]))).
Proof.
  unfold Proxy.handler, Proxy.forward_init, Proxy.error_body. split.
  - intros Hmethod. apply String.eqb_neq in Hmethod. rewrite Hmethod.
    reflexivity.
  - intros Hmethod. rewrite Hmethod. simpl. split; [| split].
    + destruct (fetch BACKEND_URL _) as [backendResponse | err].
      * destruct (Proxy.json backendResponse) as [data | err].
        -- exists []. reflexivity.
        -- exists [err]. reflexivity.
      * exists [err]. reflexivity.
    + intros backendResponse data Hfetch Hjson. rewrite Hfetch, Hjson.
      reflexivity.
    + intros err Hfetch. rewrite Hfetch. reflexivity.
Qed.

Lemma proxy_handler_responses_witness :
  fst (Proxy.handler (Some "https://backend.example/api") answering_backend
         sample_get)
  = {| Proxy.status := 405;
       Proxy.payload :=
         Proxy.JObject [("error", Proxy.JString "Method not allowed")] |}
  /\ fst (Proxy.handler (Some "https://backend.example/api") answering_backend
            sample_post)
     = {| Proxy.status := 200;
          Proxy.payload := Proxy.JObject [("ok", Proxy.JBool true)] |}
  /\ fst (Proxy.handler (Some "https://backend.example/api")
            unreachable_backend sample_post)
     = {| Proxy.status := 500;
          Proxy.payload :=
            Proxy.JObject [("error", Proxy.JString "Failed to reach backend")] |}.
Proof.
  split; [| split].
  - rewrite (proj1 (proxy_handler_responses
                      (Some "https://backend.example/api") answering_backend
                      sample_get)).
    + reflexivity.
    + discriminate.
  - destruct (proj2 (proxy_handler_responses
                       (Some "https://backend.example/api") answering_backend
                       sample_post) eq_refl) as [_ [Hok _]].
    rewrite (Hok _ _ eq_refl eq_refl). reflexivity.
  - destruct (proj2 (proxy_handler_responses
                       (Some "https://backend.example/api") unreachable_backend
                       sample_post) eq_refl) as [_ [_ Hfail]].
    rewrite (Hfail _ eq_refl). reflexivity.
Defined.

(** A backend answer that is not JSON is also reported with status 500. *)
Lemma proxy_handler_invalid_json
    (BACKEND_URL : option string) (fetch : Proxy.Fetch) (req : Proxy.Request)
    (backendResponse : Proxy.BackendResponse) (err : Thrown) :
  Proxy.method req = "POST" ->
  fetch BACKEND_URL (Proxy.forward_init req) = Resolved backendResponse ->
  Proxy.json backendResponse = Rejected err ->
  Proxy.status (fst (Proxy.handler BACKEND_URL fetch req)) = 500.
Proof.
  intros Hmethod Hfetch Hjson. unfold Proxy.handler.
  rewrite Hmethod, Hfetch, Hjson. reflexivity.
Qed.

(** ** Feature keys *)

(** A key that names neither a feature nor a member of [Object.prototype]
    is ignored: no setter is called. *)
Lemma handleNavigateToFeature_unknown_key
    (sess : Session) (key : string) (st : RouterState) :
  own_property featureScreenMap key = None ->
  inherited_property key = None ->
  handleNavigateToFeature sess key st = (st, []).
Proof.
  intros Hown Hinherited. unfold handleNavigateToFeature.
  rewrite (get_undefined featureScreenMap key Hown Hinherited). reflexivity.
Qed.

(** A key that names a member of [Object.prototype] passes the guard of
    line 275, whatever the session. *)
Lemma handleNavigateToFeature_inherited_key
    (sess : Session) (key : string) (m : ObjectPrototypeMember)
    (st : RouterState) :
  own_property featureScreenMap key = None ->
  inherited_property key = Some m ->
  handleNavigateToFeature sess key st <> (st, []).
Proof.
  intros Hown Hinherited. unfold handleNavigateToFeature, get.
  rewrite Hown, Hinherited. simpl.
  destruct (isSignedIn sess); simpl; intros H; inversion H.
Qed.

(** C10.  The code at the key "constructor", which is outside
    {doctors, medicine, lab, ambulance}: the lookup finds the member every
    object literal inherits, the guard passes, and the setters are
    called.  Signed out, [currentScreen] moves from "homepage" to
    "signup" and [setPendingNavigation] is handed the inherited member;
    signed in, [setCurrentScreen] is handed it.  Neither call is a
    no-op. *)
Theorem navigate_to_feature_constructor_key :
  own_property featureScreenMap "constructor" = None
  /\ handleNavigateToFeature signed_out_session "constructor" initialState
     = (setCurrentScreen signup initialState,
        [{| stray_cell := PendingNavigationCell;
            stray_value := VInherited P_constructor |}])
  /\ currentScreen
       (fst (handleNavigateToFeature signed_out_session "constructor"
               initialState))
     <> currentScreen initialState
  /\ handleNavigateToFeature (session_of complete_user) "constructor"
       initialState
     = (initialState,
        [{| stray_cell := CurrentScreenCell;
            stray_value := VInherited P_constructor |}])
  /\ handleNavigateToFeature (session_of complete_user) "constructor"
       initialState
     <> (initialState, []).
Proof.
  split; [reflexivity |]. split; [reflexivity |].
  split; [simpl; discriminate |]. split; [reflexivity |].
  intros H. inversion H.
Qed.

(** * Further properties of the router and the proxy *)

(** ** The tab bar *)

(** The own keys of the two object literals map to the screen of the
    same name. *)
Lemma own_tab_target (tab : string) (s : Screen) :
  own_property tabScreenMap tab = Some s ->
  In s [home; appointments; wellness; chat; profile] /\ screen_literal s = tab.
Proof.
  unfold tabScreenMap. cbn [own_property].
  destruct (String.eqb_spec "home" tab) as [<- | _];
    [intros H; inversion H; simpl; tauto |].
  destruct (String.eqb_spec "appointments" tab) as [<- | _];
    [intros H; inversion H; simpl; tauto |].
  destruct (String.eqb_spec "wellness" tab) as [<- | _];
    [intros H; inversion H; simpl; tauto |].
  destruct (String.eqb_spec "chat" tab) as [<- | _];
    [intros H; inversion H; simpl; tauto |].
  destruct (String.eqb_spec "profile" tab) as [<- | _];
    [intros H; inversion H; simpl; tauto |].
  intros H. discriminate H.
Qed.

Lemma own_feature_target (key : string) (s : Screen) :
  own_property featureScreenMap key = Some s ->
  In s feature_screens /\ screen_literal s = key.
Proof.
  unfold featureScreenMap, feature_screens. cbn [own_property].
  destruct (String.eqb_spec "doctors" key) as [<- | _];
    [intros H; inversion H; simpl; tauto |].
  destruct (String.eqb_spec "medicine" key) as [<- | _];
    [intros H; inversion H; simpl; tauto |].
  destruct (String.eqb_spec "lab" key) as [<- | _];
    [intros H; inversion H; simpl; tauto |].
  destruct (String.eqb_spec "ambulance" key) as [<- | _];
    [intros H; inversion H; simpl; tauto |].
  intros H. discriminate H.
Qed.

(** A tab of the bar. *)
Lemma handleTabChange_own (tab : string) (st : RouterState) (s : Screen) :
  own_property tabScreenMap tab = Some s ->
  screen_literal s = tab
  /\ (isTempAccount st = true -> s = appointments \/ s = wellness ->
      handleTabChange tab st = (setShowRegisterModal true st, []))
  /\ (isTempAccount st = false \/ (s <> appointments /\ s <> wellness) ->
      handleTabChange tab st = (setCurrentScreen s st, [])).
Proof.
  intros Hown. destruct (own_tab_target tab Hown) as [Hin Hname].
  split; [exact Hname |].
  unfold handleTabChange, get. rewrite Hown.
  unfold or_else, handleTrialFeatureAccess. simpl truthy. cbv iota.
  unfold includes_value. split.
  - intros Htemp [-> | ->]; rewrite Htemp; reflexivity.
  - intros [Hfull | [Hna Hnw]].
    + rewrite Hfull. reflexivity.
    + simpl in Hin.
      destruct Hin as [<- | [<- | [<- | [<- | [<- | []]]]]];
        try contradiction; rewrite andb_false_r; reflexivity.
Qed.

(** A string that names no property at all. *)
Lemma handleTabChange_missing (tab : string) (st : RouterState) :
  own_property tabScreenMap tab = None ->
  inherited_property tab = None ->
  handleTabChange tab st = (setCurrentScreen home st, []).
Proof.
  intros Hown Hinherited. unfold handleTabChange.
  rewrite (get_undefined tabScreenMap tab Hown Hinherited).
  unfold or_else, handleTrialFeatureAccess. simpl.
  rewrite andb_false_r. reflexivity.
Qed.

(** A string that names a member of [Object.prototype]. *)
Lemma handleTabChange_inherited
    (tab : string) (st : RouterState) (m : ObjectPrototypeMember) :
  own_property tabScreenMap tab = None ->
  inherited_property tab = Some m ->
  handleTabChange tab st
  = (st, [{| stray_cell := CurrentScreenCell; stray_value := VInherited m |}]).
Proof.
  intros Hown Hinherited. unfold handleTabChange, get.
  rewrite Hown, Hinherited.
  unfold or_else, handleTrialFeatureAccess. simpl.
  rewrite andb_false_r. reflexivity.
Qed.

(** X1.  [handleTabChange] for every string.  A tab of the bar leads to
    the screen of the same name, except that a temporary account asking
    for "appointments" or "wellness" gets the registration modal and
    stays where it is; a string that names no property at all leads to
    "home"; a string that names a member of [Object.prototype] is not
    replaced by "home": the inherited member is handed to
    [setCurrentScreen]. *)
Theorem tab_change_outcomes (tab : string) (st : RouterState) :
  (forall s,
     own_property tabScreenMap tab = Some s ->
     screen_literal s = tab
     /\ (isTempAccount st = true -> s = appointments \/ s = wellness ->
         handleTabChange tab st = (setShowRegisterModal true st, []))
     /\ (isTempAccount st = false \/ (s <> appointments /\ s <> wellness) ->
         handleTabChange tab st = (setCurrentScreen s st, [])))
  /\ (own_property tabScreenMap tab = None ->
      inherited_property tab = None ->
      handleTabChange tab st = (setCurrentScreen home st, []))
  /\ (forall m,
        own_property tabScreenMap tab = None ->
        inherited_property tab = Some m ->
        handleTabChange tab st
        = (st, [{| stray_cell := CurrentScreenCell;
                   stray_value := VInherited m |}])).
Proof.
  split; [| split].
  - intros s. apply handleTabChange_own.
  - apply handleTabChange_missing.
  - intros m. apply handleTabChange_inherited.
Qed.

Lemma tab_change_outcomes_witness :
  handleTabChange "wellness" trial_home_state
  = (setShowRegisterModal true trial_home_state, [])
  /\ handleTabChange "chat" trial_home_state
     = (setCurrentScreen chat trial_home_state, [])
  /\ handleTabChange "settings" trial_home_state
     = (setCurrentScreen home trial_home_state, [])
  /\ handleTabChange "toString" trial_home_state
     = (trial_home_state,
        [{| stray_cell := CurrentScreenCell;
            stray_value := VInherited P_toString |}]).
Proof.
  destruct (tab_change_outcomes "wellness" trial_home_state) as [Hwell _].
  destruct (tab_change_outcomes "chat" trial_home_state) as [Hchat _].
  destruct (tab_change_outcomes "settings" trial_home_state)
    as [_ [Hmissing _]].
  destruct (tab_change_outcomes "toString" trial_home_state)
    as [_ [_ Hinherited]].
  split; [| split; [| split]].
  - apply (proj1 (proj2 (Hwell wellness eq_refl))); [reflexivity | tauto].
  - apply (proj2 (proj2 (Hchat chat eq_refl))). right. split; discriminate.
  - apply Hmissing; reflexivity.
  - apply (Hinherited P_toString); reflexivity.
Defined.

(** X2.  For a signed-in session, pressing a tab that navigates makes it
    the active tab; a tab press that is answered with the registration
    modal leaves the active tab as it was; a string that names no
    property at all makes "home" the active tab. *)
Theorem active_tab_follows_tab_change
    (sess : Session) (tab : string) (st : RouterState) :
  isSignedIn sess = true ->
  (forall s,
     own_property tabScreenMap tab = Some s ->
     (isTempAccount st = false \/ (s <> appointments /\ s <> wellness) ->
      activeTab sess (fst (handleTabChange tab st)) = tab)
     /\ (isTempAccount st = true -> s = appointments \/ s = wellness ->
         activeTab sess (fst (handleTabChange tab st)) = activeTab sess st))
  /\ (own_property tabScreenMap tab = None ->
      inherited_property tab = None ->
      activeTab sess (fst (handleTabChange tab st)) = "home").
Proof.
  intros Hin. split.
  - intros s Hs. destruct (handleTabChange_own tab st Hs) as [Hname [Hmodal Hnav]].
    destruct (own_tab_target tab Hs) as [Hfive _]. split.
    + intros Hcase. rewrite (Hnav Hcase). unfold activeTab. rewrite Hin.
      simpl in Hfive. rewrite <- Hname.
      destruct Hfive as [<- | [<- | [<- | [<- | [<- | []]]]]]; reflexivity.
    + intros Htemp Hs'. rewrite (Hmodal Htemp Hs'). reflexivity.
  - intros Hnone Hinh. rewrite (handleTabChange_missing tab st Hnone Hinh).
    unfold activeTab.
    rewrite Hin. reflexivity.
Qed.

Lemma active_tab_follows_tab_change_witness :
  activeTab (session_of complete_user)
    (fst (handleTabChange "profile" trial_home_state)) = "profile"
  /\ activeTab (session_of complete_user)
       (fst (handleTabChange "appointments" trial_home_state)) = "home".
Proof.
  destruct (@active_tab_follows_tab_change (session_of complete_user)
              "profile" trial_home_state eq_refl) as [Hprofile _].
  destruct (@active_tab_follows_tab_change (session_of complete_user)
              "appointments" trial_home_state eq_refl) as [Happointments _].
  split.
  - apply (proj1 (Hprofile profile eq_refl)). right. split; discriminate.
  - rewrite (proj2 (Happointments appointments eq_refl) eq_refl
               (or_introl eq_refl)).
    reflexivity.
Defined.

(** X3.  The active tab is always one of the five tabs of the bar,
    whatever the session and the screen; feeding it back to
    [handleTabChange] is therefore never answered with "home" by
    default or with an inherited member. *)
Theorem active_tab_is_a_tab (sess : Session) (st : RouterState) :
  exists s,
    own_property tabScreenMap (activeTab sess st) = Some s
    /\ screen_literal s = activeTab sess st.
Proof.
  unfold activeTab. destruct (isSignedIn sess); simpl.
  - destruct (currentScreen st); simpl; eexists; split; reflexivity.
  - exists home. split; reflexivity.
Qed.

(** ** Who is shown what *)

(** X4.  A loaded, signed-out session outside professional mode is shown
    the homepage or the login page, whatever [currentScreen] holds, and
    the mounted tree holds none of the callbacks of the signed-in
    application. *)
Theorem signed_out_sees_public_pages (sess : Session) (st : RouterState) :
  isLoaded sess = true ->
  isSignedIn sess = false ->
  isProfessionalMode st = false ->
  (view sess st = HomepageWithChatbot
   \/ (currentScreen st = login /\ view sess st = LoginPage false)
   \/ (currentScreen st = signup /\ view sess st = LoginPage true))
  /\ (forall cb, offers sess st cb = true -> signed_in_callback cb = false).
Proof.
  intros Hloaded Hout Hmode. unfold view, offers, render.
  rewrite Hloaded, Hout, Hmode. simpl. split.
  - destruct (currentScreen st); auto.
  - intros cb. destruct (currentScreen st), cb; simpl; intros H;
      try reflexivity; discriminate H.
Qed.

Lemma signed_out_sees_public_pages_witness :
  view signed_out_session (setCurrentScreen doctors initialState)
  = HomepageWithChatbot
  /\ offers signed_out_session (setCurrentScreen doctors initialState)
       CB_handleTabChange = false.
Proof.
  destruct (@signed_out_sees_public_pages signed_out_session
              (setCurrentScreen doctors initialState) eq_refl eq_refl eq_refl)
    as [[Hhome | [[Hlogin _] | [Hsignup _]]] Hnone].
  - split; [exact Hhome |].
    destruct (offers signed_out_session (setCurrentScreen doctors initialState)
                CB_handleTabChange) eqn:Hoffer; [| reflexivity].
    discriminate (Hnone CB_handleTabChange Hoffer).
  - discriminate Hlogin.
  - discriminate Hsignup.
Defined.

(** X5.  The feature shortcuts and the entry to the professional portal
    are mounted only on the signed-out homepage.  So whenever the mounted
    tree calls [handleNavigateToFeature] with one of its four keys, the
    request is parked in [pendingNavigation] and the visitor is sent to
    "signup": the direct navigation of lines 276-277 is not taken. *)
Theorem feature_shortcuts_only_signed_out
    (sess : Session) (st : RouterState) :
  offers sess st CB_handleNavigateToFeature = true
  \/ offers sess st CB_handleProfessionalPortalAccess = true ->
  (isLoaded sess = true /\ isSignedIn sess = false
   /\ isProfessionalMode st = false /\ view sess st = HomepageWithChatbot)
  /\ (forall key target,
        own_property featureScreenMap key = Some target ->
        handleNavigateToFeature sess key st
        = (setCurrentScreen signup (setPendingNavigation (Some target) st), [])).
Proof.
  intros Hoffer.
  assert (Hhome : isLoaded sess = true /\ isSignedIn sess = false
                  /\ isProfessionalMode st = false
                  /\ view sess st = HomepageWithChatbot).
  { revert Hoffer. unfold offers, render, view, renderProfessionalScreen.
    destruct (isLoaded sess); simpl; [| intros [H | H]; discriminate H].
    destruct st as [cs ps pm pn ta sm udc]; simpl.
    destruct pm; simpl.
    - destruct ps as [p |]; simpl; [| intros [H | H]; discriminate H].
      destruct (String.eqb p professional_portal); simpl;
        [intros [H | H]; discriminate H |].
      destruct (String.eqb p doctor_dashboard || String.eqb p pharmacist_dashboard
                || String.eqb p lab_dashboard || String.eqb p ambulance_dashboard);
        simpl; intros [H | H]; discriminate H.
    - destruct (isSignedIn sess); simpl.
      + destruct cs, ta; simpl; intros [H | H]; discriminate H.
      + destruct cs; simpl; intros [H | H];
          try discriminate H; repeat split; reflexivity. }
  split; [exact Hhome |].
  intros key target Hown. destruct Hhome as [_ [Hout _]].
  apply handleNavigateToFeature_signed_out; assumption.
Qed.

Lemma feature_shortcuts_only_signed_out_witness :
  view signed_out_session initialState = HomepageWithChatbot
  /\ handleNavigateToFeature signed_out_session "ambulance" initialState
     = (setCurrentScreen signup
          (setPendingNavigation (Some ambulance) initialState), []).
Proof.
  destruct (@feature_shortcuts_only_signed_out signed_out_session initialState
              (or_introl eq_refl)) as [[_ [_ [_ Hview]]] Hpark].
  split; [exact Hview | apply Hpark; reflexivity].
Defined.

(** X6.  While professional mode is on and the session is loaded, the
    professional sub-screen is shown whatever the session and
    [currentScreen] are, a session reaction does not change what is
    shown, and the tree holds only the three professional callbacks. *)
Theorem professional_mode_shadows_session
    (sess sess' : Session) (st : RouterState) :
  isLoaded sess = true ->
  isLoaded sess' = true ->
  isProfessionalMode st = true ->
  view sess' (onSessionChange sess' st) = view sess st
  /\ view sess st = Professional (professionalComponent st)
  /\ (forall cb,
        offers sess st cb = true ->
        cb = CB_handleProfessionalPortalSelection
        \/ cb = CB_handleBackToHomepage
        \/ cb = CB_handleBackToProfessionalPortal).
Proof.
  intros Hloaded Hloaded' Hmode.
  destruct (authEffect_professional sess' st (profileEffect sess' st))
    as [Hscreen Hflag].
  destruct (profileEffect_professional sess' st) as [Hscreen' Hflag'].
  split; [| split].
  - unfold view, professionalComponent, onSessionChange.
    rewrite Hloaded, Hloaded', Hflag, Hflag', Hmode, Hscreen, Hscreen'.
    reflexivity.
  - unfold view. rewrite Hloaded, Hmode. reflexivity.
  - intros cb. unfold offers, render, renderProfessionalScreen.
    rewrite Hloaded, Hmode. simpl.
    destruct (professionalScreen st) as [p |]; simpl.
    + destruct (String.eqb p professional_portal); simpl.
      * destruct cb; simpl; intros H; try discriminate H; auto.
      * destruct (String.eqb p doctor_dashboard
                  || String.eqb p pharmacist_dashboard
                  || String.eqb p lab_dashboard
                  || String.eqb p ambulance_dashboard); simpl;
          destruct cb; simpl; intros H; try discriminate H; auto.
    + destruct cb; simpl; intros H; try discriminate H; auto.
Qed.

Lemma professional_mode_shadows_session_witness :
  view (session_of new_user)
    (onSessionChange (session_of new_user)
       (handleProfessionalPortalAccess initialState))
  = Professional ProfessionalPortal.
Proof.
  destruct (@professional_mode_shadows_session signed_out_session
              (session_of new_user)
              (handleProfessionalPortalAccess initialState)
              eq_refl eq_refl eq_refl) as [Hsame [Hview _]].
  rewrite Hsame. exact Hview.
Defined.

(** X7.  Professional mode has no dead end.  With a loaded session, the
    portal screen (also shown for null and for any string that is not one
    of the four dashboards) holds the way back to the homepage; a
    dashboard holds the way back to the portal, which then holds it.
    Taking the way back to the homepage leaves professional mode and, for
    a signed-out session, shows the homepage. *)
Theorem professional_mode_way_out (sess : Session) (st : RouterState) :
  isLoaded sess = true ->
  isProfessionalMode st = true ->
  ((professionalComponent st = ProfessionalPortal
    /\ offers sess st CB_handleBackToHomepage = true)
   \/ (professionalComponent st <> ProfessionalPortal
       /\ offers sess st CB_handleBackToProfessionalPortal = true
       /\ professionalComponent (handleBackToProfessionalPortal st)
          = ProfessionalPortal
       /\ offers sess (handleBackToProfessionalPortal st)
            CB_handleBackToHomepage = true))
  /\ isProfessionalMode (handleBackToHomepage st) = false
  /\ (isSignedIn sess = false ->
      view sess (handleBackToHomepage st) = HomepageWithChatbot).
Proof.
  intros Hloaded Hmode. split; [| split].
  - unfold offers, render, renderProfessionalScreen, professionalComponent.
    simpl. rewrite Hloaded, Hmode. simpl.
    destruct (professionalScreen st) as [p |]; simpl; [| left; split; reflexivity].
    destruct (String.eqb p professional_portal) eqn:Hportal; simpl;
      [left; split; reflexivity |].
    destruct (String.eqb p doctor_dashboard); simpl;
      [right; repeat split; discriminate |].
    destruct (String.eqb p pharmacist_dashboard); simpl;
      [right; repeat split; discriminate |].
    destruct (String.eqb p lab_dashboard); simpl;
      [right; repeat split; discriminate |].
    destruct (String.eqb p ambulance_dashboard); simpl;
      [right; repeat split; discriminate |].
    left. split; reflexivity.
  - reflexivity.
  - intros Hout. unfold view. simpl. rewrite Hloaded, Hout. reflexivity.
Qed.

Lemma professional_mode_way_out_witness :
  offers signed_out_session
    (handleProfessionalPortalSelection "lab-dashboard"
       (handleProfessionalPortalAccess initialState))
    CB_handleBackToProfessionalPortal = true
  /\ view signed_out_session
       (handleBackToHomepage
          (handleProfessionalPortalSelection "lab-dashboard"
             (handleProfessionalPortalAccess initialState)))
     = HomepageWithChatbot.
Proof.
  destruct (@professional_mode_way_out signed_out_session
              (handleProfessionalPortalSelection "lab-dashboard"
                 (handleProfessionalPortalAccess initialState))
              eq_refl eq_refl)
    as [[[Hportal _] | [_ [Hback _]]] [_ Hhome]].
  - discriminate Hportal.
  - split; [exact Hback | apply Hhome; reflexivity].
Defined.

(** ** Feature requests and the session reaction *)

(** X8.  For each of the four feature keys: a signed-in caller is taken
    to the screen of that name and nothing is parked; a signed-out
    caller is sent to "signup" with the screen parked.  Once the reaction
    to the sign-in and its re-run have settled, nothing is pending; a
    user with a complete profile is shown that feature's screen in the
    main application, and a user with an incomplete profile is shown the
    registration form instead. *)
Theorem feature_request_after_sign_in
    (signedOut signedIn : Session) (u : User) (key : string)
    (target : Screen) (st : RouterState) :
  isSignedIn signedOut = false ->
  isLoaded signedIn = true ->
  isSignedIn signedIn = true ->
  user signedIn = Some u ->
  isProfessionalMode st = false ->
  own_property featureScreenMap key = Some target ->
  screen_literal target = key
  /\ handleNavigateToFeature signedIn key st = (setCurrentScreen target st, [])
  /\ exists parked,
       handleNavigateToFeature signedOut key st = (parked, [])
       /\ currentScreen parked = signup
       /\ pendingNavigation parked = Some target
       /\ pendingNavigation (settle signedIn parked) = None
       /\ authRerun signedIn (settle signedIn parked) = settle signedIn parked
       /\ (hasBasicInfo u || hasMetadata u = true ->
           currentScreen (settle signedIn parked) = target
           /\ view signedIn (settle signedIn parked)
              = MainApp (isTemp u)
                  (screenComponent (setCurrentScreen target st))
                  "home" (showRegisterModal st))
       /\ (hasBasicInfo u || hasMetadata u = false ->
           currentScreen (settle signedIn parked) = register
           /\ view signedIn (settle signedIn parked) = RegistrationForm true).
Proof.
  intros Hout Hloaded Hin Huser Hmode Hown.
  destruct (own_feature_target key Hown) as [Hfeature Hname].
  split; [exact Hname |]. split.
  - unfold handleNavigateToFeature, get. rewrite Hown, Hin. reflexivity.
  - exists (setCurrentScreen signup (setPendingNavigation (Some target) st)).
    split; [apply handleNavigateToFeature_signed_out; assumption |].
    split; [reflexivity |]. split; [reflexivity |].
    split; [| split; [apply settle_is_quiet |]].
    + unfold settle, authRerun, onSessionChange, authEffect, profileEffect.
      rewrite Hloaded, Hin, Huser. simpl.
      destruct (negb (hasBasicInfo u || hasMetadata u)
                && negb (screen_eqb target register)); [reflexivity |].
      destruct (on_auth_screen target); reflexivity.
    + destruct st as [cs ps pm pn ta sm udc]. simpl in Hmode. subst pm.
      unfold feature_screens in Hfeature. simpl in Hfeature. split.
      * intros Hcomplete.
        unfold settle, authRerun, onSessionChange, authEffect, profileEffect,
          view, activeTab.
        rewrite Hloaded, Hin, Huser. simpl. rewrite Hcomplete.
        destruct Hfeature as [<- | [<- | [<- | [<- | []]]]];
          split; reflexivity.
      * intros Hincomplete.
        assert (Htemp : isTemp u = true).
        { apply orb_false_iff in Hincomplete.
          destruct Hincomplete as [Hbasic _].
          unfold isTemp. rewrite Hbasic. apply orb_true_r. }
        unfold settle, authRerun, onSessionChange, authEffect, profileEffect,
          view, activeTab.
        rewrite Hloaded, Hin, Huser. simpl. rewrite Hincomplete, Htemp.
        destruct Hfeature as [<- | [<- | [<- | [<- | []]]]];
          split; reflexivity.
Qed.

Lemma feature_request_after_sign_in_witness :
  exists parked,
    handleNavigateToFeature signed_out_session "medicine" initialState
    = (parked, [])
    /\ view (session_of complete_user) (settle (session_of complete_user) parked)
       = MainApp false MedicineOrdering "home" false
    /\ view (session_of new_user) (settle (session_of new_user) parked)
       = RegistrationForm true.
Proof.
  exists (setCurrentScreen signup
            (setPendingNavigation (Some medicine) initialState)).
  destruct (@feature_request_after_sign_in signed_out_session
              (session_of complete_user) complete_user "medicine" medicine
              initialState eq_refl eq_refl eq_refl eq_refl eq_refl eq_refl)
    as [_ [_ [parked [Hrun [_ [_ [_ [_ [Hcomplete _]]]]]]]]].
  destruct (@feature_request_after_sign_in signed_out_session
              (session_of new_user) new_user "medicine" medicine
              initialState eq_refl eq_refl eq_refl eq_refl eq_refl eq_refl)
    as [_ [_ [parked' [Hrun' [_ [_ [_ [_ [_ Hincomplete]]]]]]]]].
  inversion Hrun. subst parked. inversion Hrun'. subst parked'.
  split; [reflexivity |].
  split; [exact (proj2 (Hcomplete eq_refl)) | exact (proj2 (Hincomplete eq_refl))].
Defined.



(** X10.  The reaction moves the router off the screens of the other
    side.  After the reaction to a loaded, signed-in session,
    [currentScreen] is none of "homepage", "login", "signup", provided
    whatever was pending is a feature screen (as it is in every reachable
    state).  After the reaction to a loaded, signed-out session it is
    neither "home" nor "welcome"; every other screen is left in place. *)
Theorem reaction_moves_off_other_side (sess : Session) (st : RouterState) :
  isLoaded sess = true ->
  (isSignedIn sess = true ->
   user sess <> None ->
   (forall target,
      pendingNavigation st = Some target -> In target feature_screens) ->
   on_auth_screen (currentScreen (onSessionChange sess st)) = false)
  /\ (isSignedIn sess = false ->
      currentScreen (onSessionChange sess st) <> home
      /\ currentScreen (onSessionChange sess st) <> welcome
      /\ (currentScreen st <> home -> currentScreen st <> welcome ->
          currentScreen (onSessionChange sess st) = currentScreen st)).
Proof.
  intros Hloaded. split.
  - intros Hin Huser Hpending.
    destruct (user sess) as [u |] eqn:Hu; [| contradiction].
    unfold onSessionChange, authEffect, profileEffect.
    rewrite Hloaded, Hin, Hu. simpl.
    destruct st as [cs ps pm pn ta sm udc]; simpl in *.
    destruct pn as [target |].
    + specialize (Hpending target eq_refl). unfold feature_screens in Hpending.
      simpl in Hpending.
      destruct Hpending as [<- | [<- | [<- | [<- | []]]]]; reflexivity.
    + destruct udc, cs; reflexivity.
  - intros Hout. unfold onSessionChange, authEffect, profileEffect.
    rewrite Hloaded, Hout. simpl.
    destruct st as [cs ps pm pn ta sm udc]; simpl.
    destruct cs; simpl; repeat split;
      try discriminate; intros; try reflexivity; contradiction.
Qed.

Lemma reaction_moves_off_other_side_witness :
  on_auth_screen
    (currentScreen (onSessionChange (session_of complete_user) lab_pending_state))
  = false
  /\ currentScreen
       (onSessionChange signed_out_session (setCurrentScreen home initialState))
     <> home.
Proof.
  split.
  - apply (proj1 (@reaction_moves_off_other_side (session_of complete_user)
                    lab_pending_state eq_refl)).
    + reflexivity.
    + discriminate.
    + intros target H. inversion H. simpl. tauto.
  - apply (proj2 (@reaction_moves_off_other_side signed_out_session
                    (setCurrentScreen home initialState) eq_refl)).
    reflexivity.
Defined.

(** X11.  The first reaction to a sign-in tests the [userDataComplete] of
    the render, which the profile effect of the same render has only
    scheduled to change.  So from a state whose flag is still false, with
    nothing pending and not already on "register", the reaction leads to
    "register" whatever the profile of the user, even a complete one; the
    state it produces is kept by further reactions, and outside
    professional mode the registration form is shown. *)
Theorem first_sign_in_lands_on_register
    (sess : Session) (u : User) (st : RouterState) :
  isLoaded sess = true ->
  isSignedIn sess = true ->
  user sess = Some u ->
  pendingNavigation st = None ->
  userDataComplete st = false ->
  currentScreen st <> register ->
  currentScreen (onSessionChange sess st) = register
  /\ userDataComplete (onSessionChange sess st)
     = hasBasicInfo u || hasMetadata u
  /\ onSessionChange sess (onSessionChange sess st) = onSessionChange sess st
  /\ (isProfessionalMode st = false ->
      view sess (onSessionChange sess st) = RegistrationForm (isTemp u)).
Proof.
  intros Hloaded Hin Huser Hpending Hflag Hscreen.
  assert (Hne : screen_eqb (currentScreen st) register = false).
  { destruct (screen_eqb (currentScreen st) register) eqn:Heq; [| reflexivity].
    apply screen_eqb_eq in Heq. contradiction. }
  destruct st as [cs ps pm pn ta sm udc]. simpl in *. subst pn udc.
  unfold onSessionChange, authEffect, profileEffect, view.
  rewrite Hloaded, Hin, Huser. simpl. rewrite Hne. simpl.
  repeat split.
  - destruct (hasBasicInfo u || hasMetadata u); reflexivity.
  - intros ->. reflexivity.
Qed.

Lemma first_sign_in_lands_on_register_witness :
  currentScreen
    (onSessionChange (session_of complete_user)
       (setCurrentScreen login initialState)) = register
  /\ view (session_of complete_user)
       (onSessionChange (session_of complete_user)
          (setCurrentScreen login initialState))
     = RegistrationForm false.
Proof.
  destruct (@first_sign_in_lands_on_register (session_of complete_user)
              complete_user (setCurrentScreen login initialState)
              eq_refl eq_refl eq_refl eq_refl eq_refl)
    as [Hscreen [_ [_ Hview]]].
  - discriminate.
  - split; [exact Hscreen | apply Hview; reflexivity].
Defined.

(** X12.  What the reaction never writes.  It leaves
    [showRegisterModal], [professionalScreen] and [isProfessionalMode]
    alone for every session; a session that is signed out or has no user
    also leaves [isTempAccount] and [userDataComplete] as they were, so
    the flags of the last user survive a sign-out; and a session that is
    not loaded leaves [currentScreen] and [pendingNavigation] alone. *)
Theorem session_reaction_frame (sess : Session) (st : RouterState) :
  (showRegisterModal (onSessionChange sess st) = showRegisterModal st
   /\ professionalScreen (onSessionChange sess st) = professionalScreen st
   /\ isProfessionalMode (onSessionChange sess st) = isProfessionalMode st)
  /\ (isSignedIn sess = false \/ user sess = None ->
      isTempAccount (onSessionChange sess st) = isTempAccount st
      /\ userDataComplete (onSessionChange sess st) = userDataComplete st)
  /\ (isLoaded sess = false ->
      currentScreen (onSessionChange sess st) = currentScreen st
      /\ pendingNavigation (onSessionChange sess st) = pendingNavigation st).
Proof.
  split; [| split].
  - session_cases sess st; try (repeat split; reflexivity);
      destruct udc, pn, cs; repeat split; reflexivity.
  - intros Hnone. revert Hnone.
    session_cases sess st; intros [H | H]; try discriminate H;
      try (split; reflexivity);
      destruct pn, udc, cs; split; reflexivity.
  - intros Hloading. revert Hloading.
    session_cases sess st; intros H; try discriminate H; split; reflexivity.
Qed.

Lemma session_reaction_frame_witness :
  isTempAccount (onSessionChange signed_out_session trial_home_state) = true
  /\ currentScreen (onSessionChange signed_out_session trial_home_state)
     = homepage.
Proof.
  split.
  - rewrite (proj1 (proj1 (proj2 (session_reaction_frame signed_out_session
                                    trial_home_state))
                      (or_introl eq_refl))).
    reflexivity.
  - reflexivity.
Defined.

(** X13.  A signed-in user without a first name, a last name or a primary
    phone number is marked temporary by the reaction whatever its
    [accountType], "full" included, and its [userDataComplete] is then
    the [profileComplete] flag alone; the tabs "appointments" and
    "wellness" then open the registration modal instead of navigating. *)
Theorem incomplete_basic_info_is_temporary
    (sess : Session) (u : User) (st : RouterState) :
  isSignedIn sess = true ->
  user sess = Some u ->
  hasBasicInfo u = false ->
  let st' := onSessionChange sess st in
  isTempAccount st' = true
  /\ userDataComplete st' = hasMetadata u
  /\ handleTabChange "appointments" st' = (setShowRegisterModal true st', [])
  /\ handleTabChange "wellness" st' = (setShowRegisterModal true st', []).
Proof.
  intros Hin Huser Hbasic.
  assert (Htemp : isTempAccount (onSessionChange sess st) = true).
  { unfold onSessionChange.
    assert (Hprofile : isTempAccount (profileEffect sess st) = true).
    { unfold profileEffect, isTemp. rewrite Hin, Huser, Hbasic. simpl.
      apply orb_true_r. }
    revert Hprofile. generalize (profileEffect sess st). intros st1 Hprofile.
    unfold authEffect.
    destruct (negb (isLoaded sess)); [exact Hprofile |].
    destruct (isSignedIn sess && is_some (user sess)).
    - destruct (pendingNavigation st); [exact Hprofile |].
      destruct (negb (userDataComplete st)
                && negb (screen_eqb (currentScreen st) register));
        [exact Hprofile |].
      destruct (on_auth_screen (currentScreen st)); exact Hprofile.
    - destruct (negb (isSignedIn sess)
                && (screen_eqb (currentScreen st) home
                    || screen_eqb (currentScreen st) welcome));
        exact Hprofile. }
  simpl. split; [exact Htemp |]. split.
  - unfold onSessionChange, profileEffect, authEffect.
    rewrite Hin, Huser, Hbasic. simpl.
    destruct (negb (isLoaded sess)); [reflexivity |].
    destruct (pendingNavigation st); [reflexivity |].
    destruct (negb (userDataComplete st)
              && negb (screen_eqb (currentScreen st) register));
      [reflexivity |].
    destruct (on_auth_screen (currentScreen st)); reflexivity.
  - destruct (@handleTabChange_own "appointments" (onSessionChange sess st)
                appointments eq_refl) as [_ [Hmodal _]].
    destruct (@handleTabChange_own "wellness" (onSessionChange sess st)
                wellness eq_refl) as [_ [Hmodal' _]].
    split; [apply Hmodal | apply Hmodal']; auto.
Qed.

Lemma incomplete_basic_info_is_temporary_witness :
  isTempAccount
    (onSessionChange (session_of registered_without_phone) initialState) = true
  /\ userDataComplete
       (onSessionChange (session_of registered_without_phone) initialState)
     = true
  /\ handleTabChange "appointments"
       (onSessionChange (session_of registered_without_phone) initialState)
     = (setShowRegisterModal true
          (onSessionChange (session_of registered_without_phone) initialState),
        []).
Proof.
  destruct (@incomplete_basic_info_is_temporary
              (session_of registered_without_phone) registered_without_phone
              initialState eq_refl eq_refl eq_refl)
    as [Htemp [Hcomplete [Hmodal _]]].
  split; [exact Htemp |]. split; [exact Hcomplete | exact Hmodal].
Defined.

(** ** Outcomes of the authentication handlers *)

(** X14.  [handleLogin] reports success exactly when the sign-in resource
    is available and its [create] resolves with the status "complete";
    [handleVerifyEmail] exactly when the sign-up resource is available
    and the verification attempt resolves with "complete". *)
Theorem login_and_verification_succeed_iff
    (signIn : option SignInResource) (signUp : option SignUpResource)
    (email password verificationCode : string) :
  ((exists r,
      fst (handleLogin signIn email password) = Resolved r
      /\ success r = true)
   <-> exists si,
         signIn = Some si
         /\ signIn_create si email password = Resolved "complete")
  /\ ((exists r,
         fst (handleVerifyEmail signUp verificationCode) = Resolved r
         /\ success r = true)
      <-> exists su,
            signUp = Some su
            /\ attemptEmailAddressVerification su verificationCode
               = Resolved "complete").
Proof.
  split.
  - unfold handleLogin. destruct signIn as [si |]; simpl.
    + destruct (signIn_create si email password) as [status | e] eqn:Hcreate;
        simpl.
      * destruct (String.eqb_spec status "complete") as [-> | Hne]; simpl.
        -- split.
           ++ intros _. exists si. split; [reflexivity | exact Hcreate].
           ++ intros _. exists succeeded. split; reflexivity.
        -- split.
           ++ intros [r [Hr Hs]]. inversion Hr. subst r. discriminate Hs.
           ++ intros [si' [Hsi Hcomplete]]. inversion Hsi. subst si'.
              rewrite Hcreate in Hcomplete. inversion Hcomplete. contradiction.
      * split.
        -- intros [r [Hr Hs]]. destruct e; simpl in Hr;
             [discriminate Hr | inversion Hr; subst r; discriminate Hs].
        -- intros [si' [Hsi Hcomplete]]. inversion Hsi. subst si'.
           rewrite Hcreate in Hcomplete. discriminate Hcomplete.
    + split.
      * intros [r [Hr Hs]]. inversion Hr. subst r. discriminate Hs.
      * intros [si [H _]]. discriminate H.
  - unfold handleVerifyEmail. destruct signUp as [su |]; simpl.
    + destruct (attemptEmailAddressVerification su verificationCode)
        as [status | e] eqn:Hattempt; simpl.
      * destruct (String.eqb_spec status "complete") as [-> | Hne]; simpl.
        -- split.
           ++ intros _. exists su. split; [reflexivity | exact Hattempt].
           ++ intros _. exists succeeded. split; reflexivity.
        -- split.
           ++ intros [r [Hr Hs]]. inversion Hr. subst r. discriminate Hs.
           ++ intros [su' [Hsu Hcomplete]]. inversion Hsu. subst su'.
              rewrite Hattempt in Hcomplete. inversion Hcomplete. contradiction.
      * split.
        -- intros [r [Hr Hs]]. destruct e; simpl in Hr;
             [discriminate Hr | inversion Hr; subst r; discriminate Hs].
        -- intros [su' [Hsu Hcomplete]]. inversion Hsu. subst su'.
           rewrite Hattempt in Hcomplete. discriminate Hcomplete.
    + split.
      * intros [r [Hr Hs]]. inversion Hr. subst r. discriminate Hs.
      * intros [su [H _]]. discriminate H.
Qed.

Lemma login_and_verification_succeed_iff_witness :
  (exists r,
     fst (handleLogin
            (Some {| signIn_create := fun _ _ => Resolved "complete" |})
            "asha@example.org" "secret") = Resolved r
     /\ success r = true)
  /\ ~ (exists r,
          fst (handleLogin (Some second_factor_signIn)
                 "asha@example.org" "secret") = Resolved r
          /\ success r = true).
Proof.
  split.
  - apply (proj1 (@login_and_verification_succeed_iff
                    (Some {| signIn_create := fun _ _ => Resolved "complete" |})
                    None "asha@example.org" "secret" "123456")).
    eexists. split; reflexivity.
  - intros H.
    apply (proj1 (@login_and_verification_succeed_iff
                    (Some second_factor_signIn) None
                    "asha@example.org" "secret" "123456")) in H.
    destruct H as [si [Hsi Hcomplete]]. inversion Hsi. subst si.
    discriminate Hcomplete.
Defined.

Lemma signup_needs_verification_iff
    (signUp : option SignUpResource) (user : option User)
    (update : UserUpdater) (email password : string) (isSimple : bool) :
  (exists r,
     fst (handleSignup signUp user update email password isSimple) = Resolved r
     /\ needsVerification r = Some true)
  <-> exists su,
        signUp = Some su
        /\ signUp_create su email password = Resolved "missing_requirements"
        /\ prepareEmailAddressVerification su "email_code" = Resolved tt.
Proof.
  signup_cases signUp user update email password isSimple;
    try (destruct e; simpl);
    (split;
     [ intros [r [Hr Hn]];
       first [ discriminate Hr
             | inversion Hr; subst r; simpl in Hn; try discriminate Hn;
               exists su; repeat split; assumption ]
     | intros [su' [Hsu [Hc Hp]]];
       first [ congruence | eexists; split; reflexivity ] ]).
Qed.

Lemma signup_marks_temporary_iff
    (signUp : option SignUpResource) (user : option User)
    (update : UserUpdater) (email password : string) (isSimple : bool) :
  (exists c,
     In c (snd (handleSignup signUp user update email password isSimple))
     /\ method_of (operation c) = M_user_update)
  <-> exists su u,
        signUp = Some su /\ user = Some u /\ isSimple = true
        /\ signUp_create su email password = Resolved "complete".
Proof.
  signup_cases signUp user update email password isSimple;
    (split;
     [ intros [c [Hin Hm]]; each_call Hin; simpl in Hm; try discriminate Hm;
       exists su, u; repeat split; assumption
     | intros [su' [u' [Hsu [Hu [Hs Hc]]]]];
       first [ congruence
             | eexists; split; [right; left; reflexivity | reflexivity] ] ]).
Qed.

Lemma signup_update_request
    (signUp : option SignUpResource) (user : option User)
    (update : UserUpdater) (email password : string) (isSimple : bool)
    (c : Invocation) :
  In c (snd (handleSignup signUp user update email password isSimple)) ->
  method_of (operation c) = M_user_update ->
  operation c = UserUpdate MarkTemporary.
Proof.
  signup_cases signUp user update email password isSimple;
    intros Hin Hm; each_call Hin; simpl in Hm; try discriminate Hm;
    reflexivity.
Qed.

Lemma signup_success_all_resolved
    (signUp : option SignUpResource) (user : option User)
    (update : UserUpdater) (email password : string) (isSimple : bool)
    (c : Invocation) :
  (exists r,
     fst (handleSignup signUp user update email password isSimple) = Resolved r
     /\ success r = true) ->
  In c (snd (handleSignup signUp user update email password isSimple)) ->
  rejection c = None.
Proof.
  signup_cases signUp user update email password isSimple;
    try (destruct e; simpl);
    intros [r [Hr Hs]] Hin;
    first [ discriminate Hr
          | inversion Hr; subst r; simpl in Hs; try discriminate Hs;
            each_call Hin; reflexivity ].
Qed.

(** X15.  [handleSignup]: verification is asked for exactly when [create]
    resolves with "missing_requirements" and the verification e-mail
    could be prepared; [user.update] is called exactly when the signup is
    simple, a user object is at hand and [create] resolves with
    "complete", and then only to mark the account temporary; and success
    is reported only if every invocation made has resolved. *)
Theorem signup_outcomes
    (signUp : option SignUpResource) (user : option User)
    (update : UserUpdater) (email password : string) (isSimple : bool) :
  ((exists r,
      fst (handleSignup signUp user update email password isSimple)
      = Resolved r
      /\ needsVerification r = Some true)
   <-> exists su,
         signUp = Some su
         /\ signUp_create su email password = Resolved "missing_requirements"
         /\ prepareEmailAddressVerification su "email_code" = Resolved tt)
  /\ ((exists c,
         In c (snd (handleSignup signUp user update email password isSimple))
         /\ method_of (operation c) = M_user_update)
      <-> exists su u,
            signUp = Some su /\ user = Some u /\ isSimple = true
            /\ signUp_create su email password = Resolved "complete")
  /\ (forall c,
        In c (snd (handleSignup signUp user update email password isSimple)) ->
        method_of (operation c) = M_user_update ->
        operation c = UserUpdate MarkTemporary)
  /\ ((exists r,
         fst (handleSignup signUp user update email password isSimple)
         = Resolved r
         /\ success r = true) ->
      forall c,
        In c (snd (handleSignup signUp user update email password isSimple)) ->
        rejection c = None).
Proof.
  split; [apply signup_needs_verification_iff |].
  split; [apply signup_marks_temporary_iff |].
  split.
  - intros c. apply signup_update_request.
  - intros Hs c. apply signup_success_all_resolved. exact Hs.
Qed.

Lemma signup_outcomes_witness :
  (exists r,
     fst (handleSignup (Some (signUp_with_status "missing_requirements")) None
            resolving_update "asha@example.org" "secret" false) = Resolved r
     /\ needsVerification r = Some true)
  /\ (exists c,
        In c (snd (handleSignup (Some (signUp_with_status "complete"))
                     (Some new_user) resolving_update
                     "asha@example.org" "secret" true))
        /\ method_of (operation c) = M_user_update)
  /\ forall c,
       In c (snd (handleSignup (Some (signUp_with_status "complete"))
                    (Some new_user) resolving_update
                    "asha@example.org" "secret" true)) ->
       rejection c = None.
Proof.
  split; [| split].
  - apply (proj2 (proj1 (@signup_outcomes
                           (Some (signUp_with_status "missing_requirements"))
                           None resolving_update
                           "asha@example.org" "secret" false))).
    eexists. repeat split.
  - apply (proj2 (proj1 (proj2 (@signup_outcomes
                                  (Some (signUp_with_status "complete"))
                                  (Some new_user) resolving_update
                                  "asha@example.org" "secret" true)))).
    do 2 eexists. repeat split.
  - apply (proj2 (proj2 (proj2 (@signup_outcomes
                                  (Some (signUp_with_status "complete"))
                                  (Some new_user) resolving_update
                                  "asha@example.org" "secret" true)))).
    eexists. split; reflexivity.
Defined.

(** ** Every answer of the proxy *)

(** X16.  Every answer of the proxy is decided by the method and by
    what [fetch] and [json()] do.  The status is 405 exactly for a method
    other than "POST" (compared as written, so "post" is refused); 200
    exactly when the method is "POST", [fetch] resolves and the body
    parses, the payload being the parsed body whatever status code the
    backend answered with; 500 exactly when the method is "POST" and
    [fetch] rejects or the body does not parse.  An error is logged
    exactly when it is the one [fetch] or [json()] rejected with, and the
    bodies of the 405 and 500 answers are the two fixed [{error}]
    objects. *)
Theorem proxy_status_characterised
    (BACKEND_URL : option string) (fetch : Proxy.Fetch) (req : Proxy.Request) :
  (Proxy.status (fst (Proxy.handler BACKEND_URL fetch req)) = 405
   <-> Proxy.method req <> "POST")
  /\ (Proxy.status (fst (Proxy.handler BACKEND_URL fetch req)) = 200
      <-> Proxy.method req = "POST"
          /\ exists backendResponse,
               fetch BACKEND_URL (Proxy.forward_init req)
               = Resolved backendResponse
               /\ Proxy.json backendResponse
                  = Resolved
                      (Proxy.payload (fst (Proxy.handler BACKEND_URL fetch req))))
  /\ (Proxy.status (fst (Proxy.handler BACKEND_URL fetch req)) = 500
      <-> Proxy.method req = "POST"
          /\ ((exists err,
                 fetch BACKEND_URL (Proxy.forward_init req) = Rejected err)
              \/ exists backendResponse err,
                   fetch BACKEND_URL (Proxy.forward_init req)
                   = Resolved backendResponse
                   /\ Proxy.json backendResponse = Rejected err))
  /\ (forall err,
        In (Proxy.Logged err) (snd (Proxy.handler BACKEND_URL fetch req))
        <-> Proxy.method req = "POST"
            /\ (fetch BACKEND_URL (Proxy.forward_init req) = Rejected err
                \/ exists backendResponse,
                     fetch BACKEND_URL (Proxy.forward_init req)
                     = Resolved backendResponse
                     /\ Proxy.json backendResponse = Rejected err))
  /\ (Proxy.status (fst (Proxy.handler BACKEND_URL fetch req)) = 405 ->
      Proxy.payload (fst (Proxy.handler BACKEND_URL fetch req))
      = Proxy.JObject [("error", Proxy.JString "Method not allowed")])
  /\ (Proxy.status (fst (Proxy.handler BACKEND_URL fetch req)) = 500 ->
      Proxy.payload (fst (Proxy.handler BACKEND_URL fetch req))
      = Proxy.JObject [("error", Proxy.JString "Failed to reach backend")]).
Proof.
  unfold Proxy.handler.
  destruct (String.eqb_spec (Proxy.method req) "POST") as [Hpost | Hother];
    simpl.
  - destruct (fetch BACKEND_URL (Proxy.forward_init req))
      as [backendResponse | err] eqn:Hfetch; simpl.
    + destruct (Proxy.json backendResponse) as [data | err] eqn:Hjson; simpl.
      * split; [split; [intros H; discriminate H | intros H; contradiction] |].
        split.
        { split; [intros _ | reflexivity].
          split; [exact Hpost |]. exists backendResponse.
          split; [reflexivity | exact Hjson]. }
        split.
        { split; [intros H; discriminate H |].
          intros [_ [[err H] | [r [err [Hr He]]]]]; [discriminate H |].
          inversion Hr. subst r. rewrite Hjson in He. discriminate He. }
        split.
        { intros err. split.
          - intros [H | []]. discriminate H.
          - intros [_ [H | [r [Hr He]]]]; [discriminate H |].
            inversion Hr. subst r. rewrite Hjson in He. discriminate He. }
        split; intros H; discriminate H.
      * split; [split; [intros H; discriminate H | intros H; contradiction] |].
        split.
        { split; [intros H; discriminate H |].
          intros [_ [r [Hr Hdata]]]. inversion Hr. subst r.
          rewrite Hjson in Hdata. discriminate Hdata. }
        split.
        { split; [intros _ | reflexivity].
          split; [exact Hpost |]. right. exists backendResponse, err.
          split; [reflexivity | exact Hjson]. }
        split.
        { intros err'. split.
          - intros [H | [H | []]]; [discriminate H |]. inversion H. subst err'.
            split; [exact Hpost |]. right. exists backendResponse.
            split; [reflexivity | exact Hjson].
          - intros [_ [H | [r [Hr He]]]]; [discriminate H |].
            inversion Hr. subst r. rewrite Hjson in He. inversion He.
            right. left. reflexivity. }
        split; [intros H; discriminate H | reflexivity].
    + split; [split; [intros H; discriminate H | intros H; contradiction] |].
      split.
      { split; [intros H; discriminate H |].
        intros [_ [r [Hr _]]]. discriminate Hr. }
      split.
      { split; [intros _ | reflexivity].
        split; [exact Hpost |]. left. exists err. reflexivity. }
      split.
      { intros err'. split.
        - intros [H | [H | []]]; [discriminate H |]. inversion H. subst err'.
          split; [exact Hpost |]. left. reflexivity.
        - intros [_ [H | [r [Hr _]]]]; [| discriminate Hr].
          inversion H. right. left. reflexivity. }
      split; [intros H; discriminate H | reflexivity].
  - split; [split; [intros _; exact Hother | reflexivity] |].
    split; [split; [intros H; discriminate H | intros [H _]; contradiction] |].
    split; [split; [intros H; discriminate H | intros [H _]; contradiction] |].
    split; [intros err; split; [intros [] | intros [H _]; contradiction] |].
    split; [reflexivity | intros H; discriminate H].
Qed.

Lemma proxy_status_characterised_witness :
  Proxy.status
    (fst (Proxy.handler (Some "https://backend.example/api") failing_backend
            sample_post)) = 200
  /\ Proxy.status
       (fst (Proxy.handler (Some "https://backend.example/api")
               answering_backend
               {| Proxy.method := "post"; Proxy.body := None |})) = 405
  /\ Proxy.status
       (fst (Proxy.handler (Some "https://backend.example/api")
               unreachable_backend sample_post)) = 500
  /\ In (Proxy.Logged network_error)
       (snd (Proxy.handler (Some "https://backend.example/api")
               unreachable_backend sample_post)).
Proof.
  split; [| split; [| split]].
  - apply (proj1 (proj2 (proxy_status_characterised
                           (Some "https://backend.example/api") failing_backend
                           sample_post))).
    split; [reflexivity |]. eexists. split; reflexivity.
  - apply (proj1 (proxy_status_characterised
                    (Some "https://backend.example/api") answering_backend
                    {| Proxy.method := "post"; Proxy.body := None |})).
    discriminate.
  - apply (proj1 (proj2 (proj2 (proxy_status_characterised
                                  (Some "https://backend.example/api")
                                  unreachable_backend sample_post)))).
    split; [reflexivity |]. left. exists network_error. reflexivity.
  - apply (proj1 (proj2 (proj2 (proj2 (proxy_status_characterised
                                         (Some "https://backend.example/api")
                                         unreachable_backend sample_post))))).
    split; [reflexivity |]. left. reflexivity.
Defined.

(** ** Flags set by hand and the reaction *)

(** X17.  What [handleSimpleSignupComplete] records does not outlive the
    sign-in it precedes: the reaction to a signed-in session with a user
    yields the same state whether or not the handler ran before, with
    [isTempAccount] computed from the user alone. *)
Theorem simple_signup_flag_overwritten
    (sess : Session) (u : User) (st : RouterState) :
  isSignedIn sess = true ->
  user sess = Some u ->
  onSessionChange sess (handleSimpleSignupComplete st) = onSessionChange sess st
  /\ isTempAccount (onSessionChange sess (handleSimpleSignupComplete st))
     = isTemp u.
Proof.
  intros Hin Huser.
  unfold onSessionChange, authEffect, profileEffect, handleSimpleSignupComplete.
  rewrite Hin, Huser. simpl.
  destruct st as [cs ps pm pn ta sm udc]; simpl.
  destruct (isLoaded sess); simpl; [| split; reflexivity].
  destruct pn as [target |]; [split; reflexivity |].
  destruct udc, cs; split; reflexivity.
Qed.

Lemma simple_signup_flag_overwritten_witness :
  isTempAccount
    (onSessionChange (session_of complete_user)
       (handleSimpleSignupComplete lab_pending_state)) = false.
Proof.
  exact (proj2 (@simple_signup_flag_overwritten (session_of complete_user)
                  complete_user lab_pending_state eq_refl eq_refl)).
Defined.

(** X18.  The welcome screen is passed once.  For a loaded, signed-in
    session and a state on "welcome" with nothing pending and
    [userDataComplete] true, [handleWelcomeComplete] leads to "home", the
    reaction to the session leaves the router there, the main application
    is shown with the home tab active, and, when the profile of the
    session is complete, further reactions change nothing. *)
Theorem welcome_is_passed_once (sess : Session) (u : User) (st : RouterState) :
  isLoaded sess = true ->
  isSignedIn sess = true ->
  user sess = Some u ->
  currentScreen st = welcome ->
  pendingNavigation st = None ->
  userDataComplete st = true ->
  isProfessionalMode st = false ->
  let st' := onSessionChange sess (handleWelcomeComplete st) in
  view sess st = WelcomeScreen
  /\ currentScreen st' = home
  /\ view sess st'
     = MainApp (isTemp u) PostLoginHomepage "home" (showRegisterModal st)
  /\ (hasBasicInfo u || hasMetadata u = true -> onSessionChange sess st' = st').
Proof.
  intros Hloaded Hin Huser Hscreen Hpending Hflag Hmode.
  destruct st as [cs ps pm pn ta sm udc]. simpl in *. subst cs pn udc pm.
  unfold onSessionChange, authEffect, profileEffect, view, activeTab,
    handleWelcomeComplete.
  rewrite Hloaded, Hin, Huser. simpl.
  repeat split. intros Hcomplete. rewrite Hcomplete. reflexivity.
Qed.

Lemma welcome_is_passed_once_witness :
  view (session_of complete_user)
    (onSessionChange (session_of complete_user)
       (handleWelcomeComplete
          (setUserDataComplete true (setCurrentScreen welcome initialState))))
  = MainApp false PostLoginHomepage "home" false.
Proof.
  exact (proj1 (proj2 (proj2
           (@welcome_is_passed_once (session_of complete_user) complete_user
              (setUserDataComplete true (setCurrentScreen welcome initialState))
              eq_refl eq_refl eq_refl eq_refl eq_refl eq_refl eq_refl)))).
Defined.
